(** * install.js: the installation wizard of the AI Coding Assistant

    A shallow embedding of the credential-provisioning core of
    [src/install.js] (secret generation, manifest construction, the local
    callback listener, the interactive branch of [runInstallation], the
    [.env] writer) and the properties the specification states about it.

    JavaScript values are embedded as the inductive [jsval]; objects keep
    their properties in creation order; the effects of the script (the
    secure random source and the files it writes) are threaded through an
    explicit [World]. *)

From Stdlib Require Import ZArith NArith List Ascii String Strings.Byte Lia.
From stdpp Require Import base option list sorting strings pretty gmap.

Local Open Scope Z_scope.
Set Warnings "-register-all".

(** ** JavaScript values *)

Module JS.

(** The values that flow through the script: prompt answers and URLs are
    strings, [DEFAULT_PORT] and the examples of the specification are
    numbers, an absent property reads as [undefined], and the query parser
    of the web framework produces strings, arrays and nested objects.
    [JNum z] is the integer-valued number [z] (ports and counters), for
    [z] below [10^21] in magnitude, where [ToString] prints plain decimal
    digits. *)
Inductive jsval : Type :=
  | JUndefined
  | JStr (s : string)
  | JNum (z : Z)
  | JArr (elems : list jsval)
  | JObj (props : list (string * jsval)).

(** An object is its list of own properties, in creation order. *)
Abbreviation jsobj := (list (string * jsval)).

(** [ToBoolean]: undefined, the empty string and zero are falsy;
    arrays and objects are always truthy. *)
Definition truthy (v : jsval) : bool :=
  match v with
  | JUndefined => false
  | JStr s => negb (String.eqb s "")
  | JNum z => negb (z =? 0)
  | JArr _ | JObj _ => true
  end.

(** [a || b] *)
Definition or_else (a b : jsval) : jsval := if truthy a then a else b.

Infix "|||" := or_else (at level 50, left associativity).

(** [ToString], as applied by a template literal [`${v}`], where it
    returns (see [stringifies]).  An array joins the strings of its
    elements with a comma, an [undefined] element contributing the empty
    string; a plain object prints as [[object Object]]. *)
Fixpoint to_string (v : jsval) : string :=
  match v with
  | JUndefined => "undefined"
  | JStr s => s
  | JNum z => pretty z
  | JArr elems =>
      String.concat ","
        ((fix each (l : list jsval) : list string :=
            match l with
            | [] => []
            | JUndefined :: l' => "" :: each l'
            | e :: l' => to_string e :: each l'
            end) elems)
  | JObj _ => "[object Object]"
  end.

(** Whether [ToString] returns.  An object with an own property
    [toString] makes it throw a TypeError: the property holds data, not a
    function, and the inherited [valueOf] returns the object itself.  An
    array throws when one of its elements does. *)
Fixpoint stringifies (v : jsval) : bool :=
  match v with
  | JUndefined | JStr _ | JNum _ => true
  | JArr elems =>
      (fix all (l : list jsval) : bool :=
         match l with
         | [] => true
         | e :: l' => stringifies e && all l'
         end) elems
  | JObj props => negb (existsb (fun kv => String.eqb kv.1 "toString") props)
  end.

(** Property read [o.k]: [undefined] when [o] has no own property [k]. *)
Fixpoint obj_get (k : string) (o : jsobj) : jsval :=
  match o with
  | [] => JUndefined
  | (k', v) :: o' => if String.eqb k k' then v else obj_get k o'
  end.

(** Property write [o.k = v]: an existing property keeps its place, a new
    one is created after all the others. *)
Fixpoint obj_set (k : string) (v : jsval) (o : jsobj) : jsobj :=
  match o with
  | [] => [(k, v)]
  | (k', v') :: o' =>
      if String.eqb k k' then (k, v) :: o' else (k', v') :: obj_set k v o'
  end.

(** A property key is an array index when it is the canonical decimal
    spelling of an integer below [2^32 - 1]. *)
Definition digit (c : ascii) : option N :=
  let n := N_of_ascii c in
  if ((48 <=? n) && (n <=? 57))%N then Some (n - 48)%N else None.

Fixpoint digits (s : string) (acc : N) : option N :=
  match s with
  | EmptyString => Some acc
  | String c s' =>
      match digit c with
      | Some d => digits s' (10 * acc + d)%N
      | None => None
      end
  end.

Definition array_index (k : string) : option N :=
  match k with
  | EmptyString => None
  | _ =>
      match digits k 0%N with
      | Some n =>
          if String.eqb (pretty n) k && (n <? 2 ^ 32 - 1)%N
          then Some n else None
      | None => None
      end
  end.

Definition index_le (a b : N * (string * jsval)) : Prop := (a.1 <= b.1)%N.

#[local] Instance index_le_dec : RelDecision index_le :=
  fun a b => decide (a.1 <= b.1)%N.

(** [Object.entries(o)]: the own properties in the order the language
    fixes, array-index keys first in ascending numeric order, then every
    other key in creation order. *)
Definition entries (o : jsobj) : list (string * jsval) :=
  let indexed :=
    omap (fun kv => match array_index kv.1 with
                    | Some n => Some (n, kv)
                    | None => None
                    end) o in
  let named :=
    List.filter (fun kv => match array_index kv.1 with
                           | Some _ => false
                           | None => true
                           end) o in
  (snd <$> merge_sort index_le indexed) ++ named.

(** [arr.join(sep)] on an array of strings. *)
Definition join (sep : string) (l : list string) : string :=
  String.concat sep l.

(** The line feed and the double quote, which a string literal of the
    script writes as an escape or between other quotes. *)
Definition LF : string := String "010"%char EmptyString.
Definition DQ : string := String "034"%char EmptyString.

End JS.

Import JS.

(** ** The manifest *)

(** The manifest object literal built by [generateGitHubAppManifest];
    the two [url] properties are told apart as [url] and [hook_url]. *)
Record HookAttributes := {
  hook_url : jsval;
  hook_active : bool;
  hook_secret : string
}.

Record Permissions := {
  issues : string;
  pull_requests : string;
  contents : string;
  metadata : string
}.

Record AppManifest := {
  name : string;
  url : jsval;
  hook_attributes : HookAttributes;
  redirect_url : jsval;
  public : bool;
  default_permissions : Permissions;
  default_events : list string;
  description : string
}.

(** ** The process environment *)

(** What a file holds: text written as is, or the rendering
    [JSON.stringify(m, null, 2)] of a manifest, recorded by the value it
    renders. *)
Inductive FileData : Type :=
  | Text (content : string)
  | JsonPretty (m : AppManifest).

(** The world the script acts on.  [entropy] is the sequence of bytes the
    secure random source of the system will deliver and [drawn] counts
    those already handed out; [files] is the working directory
    ([process.cwd()], which the script never changes), keyed by file
    name. *)
Record World := {
  entropy : nat -> byte;
  drawn : nat;
  files : gmap string FileData
}.

Definition IO (A : Type) : Type := World -> A * World.

#[global] Instance IO_ret : MRet IO := fun A a w => (a, w).
#[global] Instance IO_bind : MBind IO :=
  fun A B f m w => let '(a, w') := m w in f a w'.

(** [crypto.randomBytes(n)] *)
Definition randomBytes (n : nat) : IO (list byte) := fun w =>
  (entropy w <$> seq (drawn w) n,
   {| entropy := entropy w; drawn := (drawn w + n)%nat; files := files w |}).

(** [fs.writeFileSync(path, data)]: the file holds [data] and nothing
    else afterwards. *)
Definition writeFileSync (path : string) (data : FileData) : IO unit := fun w =>
  (tt, {| entropy := entropy w; drawn := drawn w;
          files := <[path := data]> (files w) |}).

(** [buf.toString('hex')]: two lower-case digits per byte. *)
Definition hex_digit (n : N) : ascii :=
  match String.get (N.to_nat n) "0123456789abcdef" with
  | Some c => c
  | None => "0"%char
  end.

Definition byte_hex (b : byte) : string :=
  let n := Byte.to_N b in
  String (hex_digit (n / 16)) (String (hex_digit (n mod 16)) EmptyString).

Fixpoint toString_hex (buf : list byte) : string :=
  match buf with
  | [] => EmptyString
  | b :: buf' => byte_hex b +:+ toString_hex buf'
  end.

(** ** The script *)

Definition APP_NAME_PREFIX : string := "AI-Coding-Assistant".
Definition DEFAULT_PORT : Z := 3000.
Definition ENV_FILE_PATH : string := ".env".
Definition MANIFEST_FILE_PATH : string := "github-app-manifest.json".

(** [function generateRandomSecret(length = 32)]; [None] is a call
    without the argument. *)
Definition generateRandomSecret (length : option nat) : IO string :=
  buf ← randomBytes (default 32%nat length);
  mret (toString_hex buf).

(** [a || e] where evaluating [e] has an effect: [e] runs only when [a]
    is falsy. *)
Definition or_else_do (a : jsval) (e : IO jsval) : IO jsval :=
  if truthy a then mret a else e.

Definition generateGitHubAppManifest (config : jsobj)
  : IO (AppManifest * string) :=
  webhookSecret ← generateRandomSecret (Some 16%nat);
  suffix ← or_else_do (obj_get "appNameSuffix" config)
             (buf ← randomBytes 4; mret (JStr (toString_hex buf)));
  let manifest := {|
    name := APP_NAME_PREFIX +:+ "-" +:+ to_string suffix;
    url := obj_get "appUrl" config
           ||| JStr "https://github.com/your-username/ai-coding-assistant";
    hook_attributes := {|
      hook_url := obj_get "webhookUrl" config;
      hook_active := true;
      hook_secret := webhookSecret
    |};
    redirect_url := obj_get "redirectUrl" config ||| obj_get "webhookUrl" config;
    public := false;
    default_permissions := {|
      issues := "write";
      pull_requests := "write";
      contents := "write";
      metadata := "read"
    |};
    default_events := [
      "issues";
      "issue_comment";
      "pull_request";
      "pull_request_review";
      "pull_request_review_comment"
    ];
    description := "AI-powered assistant that automates software development workflow from GitHub issue to implementation."
  |} in
  mret (manifest, webhookSecret).

Definition env_line (kv : string * jsval) : string :=
  kv.1 +:+ "=" +:+ to_string kv.2.

Definition saveEnvironmentVariables (config : jsobj) : IO unit :=
  let envContent := join LF (env_line <$> entries config) in
  writeFileSync ENV_FILE_PATH (Text envContent).

Definition saveManifest (manifest : AppManifest) : IO unit :=
  writeFileSync MANIFEST_FILE_PATH (JsonPretty manifest).

Definition getWebhookUrl (config : jsobj) : string :=
  let baseUrl :=
    obj_get "baseUrl" config ||| obj_get "host" config ||| JStr "http://localhost" in
  let port := obj_get "port" config ||| JNum DEFAULT_PORT in
  to_string baseUrl +:+ ":" +:+ to_string port +:+ "/api/webhook".

(** ** The callback listener *)

Inductive Method : Type := GET | HEAD.

(** A request the framework routes to the handler: its method (the route
    of [app.get] takes GET and HEAD), whether its conditional headers make
    a response with a given body fresh (they match the entity tag the
    framework derives from the body), and [req.query] as the framework
    parsed it. *)
Record Request := {
  method : Method;
  fresh : string -> bool;
  query : jsobj
}.

(** An inbound HTTP request, by where the framework routes it: to the
    handler registered with [app.get('/github/callback', ...)], or
    elsewhere, where the framework answers by itself. *)
Inductive Inbound : Type :=
  | github_callback (req : Request)
  | elsewhere.

Record Response := {
  statusCode : Z;
  body : string
}.

(** The value the promise of [startLocalServer] is resolved with. *)
Record CallbackResult := {
  code : jsval;
  installationId : jsval
}.

(** A promise is pending or fulfilled; [resolve] settles a pending
    promise and does nothing to a settled one. *)
Inductive Promise (A : Type) : Type :=
  | Pending
  | Fulfilled (value : A).

Arguments Pending {A}.
Arguments Fulfilled {A} value.

Definition resolve {A : Type} (value : A) (p : Promise A) : Promise A :=
  match p with
  | Pending => Fulfilled value
  | Fulfilled _ => p
  end.

(** The server created by [app.listen(port)] together with the promise
    its handler resolves: the port it holds, whether it is still
    listening, the state of the promise, and the responses the handler
    has sent so far, oldest first. *)
Record Listener := {
  port : jsval;
  listening : bool;
  settled : Promise CallbackResult;
  sent : list Response
}.

(** The response the framework sends for [res.send(body)], the handler
    having left the status at its default: 304 and no body when the
    request is fresh, no body for HEAD, else 200 and the body. *)
Definition res_send (req : Request) (body : string) : Response :=
  if fresh req body then {| statusCode := 304; body := EmptyString |}
  else {| statusCode := 200;
          body := match method req with GET => body | HEAD => EmptyString end |}.

(** The template literal passed to [res.send]. *)
Definition confirmation_page (installation_id code : jsval) : string :=
  LF +:+
  "        <html>" +:+ LF +:+
  "          <body style=" +:+ DQ +:+ "font-family: Arial, sans-serif; max-width: 600px; margin: 0 auto; padding: 20px;" +:+ DQ +:+ ">" +:+ LF +:+
  "            <h2>GitHub App Successfully Created!</h2>" +:+ LF +:+
  "            <p>You can now close this window and return to the installer.</p>" +:+ LF +:+
  "            <div>" +:+ LF +:+
  "              <strong>Installation ID:</strong> " +:+ to_string installation_id +:+ "<br>" +:+ LF +:+
  "              <strong>Code:</strong> " +:+ to_string code +:+ LF +:+
  "            </div>" +:+ LF +:+
  "          </body>" +:+ LF +:+
  "        </html>" +:+ LF +:+
  "      ".

(** The handler registered by [app.get('/github/callback', ...)]: the
    response it sends and what it does to the promise, or [None] when the
    template literal throws, which happens before [res.send] and
    [resolve]; the framework then answers with an error of its own. *)
Definition callback_handler (req : Request) (p : Promise CallbackResult)
  : option (Response * Promise CallbackResult) :=
  let code := obj_get "code" (query req) in
  let installation_id := obj_get "installation_id" (query req) in
  if stringifies installation_id && stringifies code then
    let res := res_send req (confirmation_page installation_id code) in
    Some (res, resolve {| code := code; installationId := installation_id |} p)
  else None.

(** [startLocalServer(port)] when [app.listen] succeeds: the server
    listens and the promise is pending. *)
Definition startLocalServer (port : jsval) : Listener :=
  {| port := port; listening := true; settled := Pending; sent := [] |}.

(** One inbound request. *)
Definition serve (inbound : Inbound) (l : Listener) : Listener :=
  match inbound with
  | github_callback req =>
      if listening l then
        match callback_handler req (settled l) with
        | Some (res, p) =>
            {| port := port l; listening := listening l;
               settled := p; sent := sent l ++ [res] |}
        | None => l
        end
      else l
  | elsewhere => l
  end.

Definition serve_all (requests : list Inbound) (l : Listener) : Listener :=
  fold_left (fun l inbound => serve inbound l) requests l.

(** [await callbackServer]: requests are served in arrival order until
    the promise is fulfilled; the result is the value, the requests still
    to come and the listener, or [None] when the promise stays pending. *)
Fixpoint await (requests : list Inbound) (l : Listener)
  : option (CallbackResult * list Inbound * Listener) :=
  match settled l with
  | Fulfilled v => Some (v, requests, l)
  | Pending =>
      match requests with
      | [] => None
      | inbound :: later => await later (serve inbound l)
      end
  end.

(** ** The interactive installation *)

(** The answers of the first prompt of the interactive method. *)
Record Answers := {
  appNameSuffix : string;
  host : string;
  port_answer : string;
  CLAUDE_API_KEY : string
}.

(** The object [inquirer.prompt] resolves to: one property per question,
    in the order the questions are asked. *)
Definition prompt (answers : Answers) : jsobj := [
  ("appNameSuffix", JStr (appNameSuffix answers));
  ("host", JStr (host answers));
  ("port", JStr (port_answer answers));
  ("CLAUDE_API_KEY", JStr (CLAUDE_API_KEY answers))
].

(** The authentication method chosen, ['pat'] with the validated token
    or ['app']. *)
Inductive AuthMethod : Type :=
  | auth_pat (GITHUB_TOKEN : string)
  | auth_app.

(** What the machine does for the ceremony of a run: [app.listen]
    succeeds, the browser is launched and the given requests arrive; or
    [app.listen] fails (a port out of range makes it throw, a port in use
    makes the server emit an error nobody handles); or launching the
    browser with [open] fails.  A list of requests stands for the first. *)
Inductive Network : Type :=
  | serves (requests : list Inbound)
  | listen_fails
  | open_fails.

#[warnings="-uniform-inheritance"] Coercion serves : list >-> Network.

(** How far a run got: still waiting for the callback, through
    [saveEnvironmentVariables], or ended by an error ([process.exit(1)]).
    Each carries [config] and the world, the first two the listener if one
    was started. *)
Inductive Run : Type :=
  | Waiting (config : jsobj) (server : Listener) (w : World)
  | Completed (config : jsobj) (server : option Listener) (w : World)
  | Aborted (config : jsobj) (w : World).

(** [runInstallation] for [installMethod === 'interactive'], up to and
    including the write of the [.env] file; the requests of [network] are
    the HTTP requests that arrive at the local port once the server is
    started.  What follows in the script writes [INSTALL.md] and prints. *)
Definition runInstallation (answers : Answers) (authMethod : AuthMethod)
    (network : Network) (w : World) : Run :=
  let config := prompt answers in
  let config := obj_set "webhookUrl" (JStr (getWebhookUrl config)) config in
  match authMethod with
  | auth_pat token =>
      let config := obj_set "GITHUB_TOKEN" (JStr token) config in
      let '(secret, w) := generateRandomSecret (Some 16%nat) w in
      let config := obj_set "WEBHOOK_SECRET" (JStr secret) config in
      let '(_, w) := saveEnvironmentVariables config w in
      Completed config None w
  | auth_app =>
      let '((manifest, webhookSecret), w) := generateGitHubAppManifest config w in
      let '(_, w) := saveManifest manifest w in
      let config := obj_set "WEBHOOK_SECRET" (JStr webhookSecret) config in
      match network with
      | listen_fails | open_fails => Aborted config w
      | serves requests =>
          let callbackServer :=
            startLocalServer (obj_get "port" config ||| JNum DEFAULT_PORT) in
          match await requests callbackServer with
          | None => Waiting config (serve_all requests callbackServer) w
          | Some (result, later, server) =>
              let config :=
                obj_set "GITHUB_APP_ID" (JStr "GET_FROM_GITHUB_APP_SETTINGS") config in
              let config :=
                obj_set "GITHUB_APP_INSTALLATION_ID" (installationId result) config in
              let config :=
                obj_set "GITHUB_PRIVATE_KEY" (JStr "DOWNLOAD_FROM_GITHUB_APP_SETTINGS") config in
              let '(_, w) := saveEnvironmentVariables config w in
              Completed config (Some (serve_all later server)) w
          end
      end
  end.

(** ** Vocabulary of the specification *)

Definition is_hex_digit (c : ascii) : bool :=
  let n := N_of_ascii c in
  ((48 <=? n) && (n <=? 57) || (97 <=? n) && (n <=? 102))%N.

(** [[0-9a-f]*] *)
Fixpoint all_hex (s : string) : bool :=
  match s with
  | EmptyString => true
  | String c s' => is_hex_digit c && all_hex s'
  end.

Fixpoint strip_prefix (p s : string) : option string :=
  match p, s with
  | EmptyString, _ => Some s
  | String a p', String b s' =>
      if Ascii.eqb a b then strip_prefix p' s' else None
  | String _ _, EmptyString => None
  end.

(** [AI-Coding-Assistant-[0-9a-f]{8}] *)
Definition matches_name_pattern (s : string) : bool :=
  match strip_prefix "AI-Coding-Assistant-" s with
  | Some h => Nat.eqb (String.length h) 8 && all_hex h
  | None => false
  end.

(** A final configuration has environment-variable-style keys; none of
    them is an array index. *)
Definition no_index_keys (config : jsobj) : Prop :=
  Forall (fun kv => array_index kv.1 = None) config.

(** The value a callback request resolves the promise with. *)
Definition result_of (req : Request) : CallbackResult :=
  {| code := obj_get "code" (query req);
     installationId := obj_get "installation_id" (query req) |}.

(** Whether the handler runs to its end on a request. *)
Definition renders (req : Request) : bool :=
  stringifies (obj_get "installation_id" (query req))
  && stringifies (obj_get "code" (query req)).

(** The first request of a trace that reaches the callback route and on
    which the handler runs to its end. *)
Fixpoint first_callback (requests : list Inbound) : option Request :=
  match requests with
  | [] => None
  | github_callback req :: later =>
      if renders req then Some req else first_callback later
  | elsewhere :: later => first_callback later
  end.

(** The configuration handed to [generateGitHubAppManifest] by the
    interactive method. *)
Definition registration_config (answers : Answers) : jsobj :=
  obj_set "webhookUrl" (JStr (getWebhookUrl (prompt answers))) (prompt answers).

(** *** Sample inputs *)

Definition sample_entropy (i : nat) : byte :=
  default "000"%byte (Byte.of_N (N.of_nat (i * 37 + 11) mod 256)).

Definition sample_world : World :=
  {| entropy := sample_entropy; drawn := 0; files := ∅ |}.

Definition sample_answers : Answers :=
  {| appNameSuffix := ""; host := "http://localhost";
     port_answer := "3000"; CLAUDE_API_KEY := "sk-0123456789abcdefghij" |}.

(** A plain GET, without conditional headers. *)
Definition get_request (query : jsobj) : Request :=
  {| method := GET; fresh := fun _ => false; query := query |}.

Definition sample_callback : Request :=
  get_request [("code", JStr "abc123"); ("installation_id", JStr "999")].

Definition second_callback : Request :=
  get_request [("code", JStr "zzz"); ("installation_id", JStr "1000")].

Definition bare_callback : Request := get_request [].

(** [GET /github/callback?code[toString]=x&installation_id=7], as the
    extended query parser reads it. *)
Definition unprintable_callback : Request :=
  get_request [("code", JObj [("toString", JStr "x")]);
               ("installation_id", JStr "7")].

(** ** The rest of the wizard *)

(** The object [validateClaudeApiKey] resolves to: [{ valid: true }], or
    [{ valid: false, error }]. *)
Record Validation := {
  valid : bool;
  error : option string
}.

Definition CLAUDE_API_KEY_ERROR : string :=
  "Invalid Claude API key format. Should start with " +:+ DQ +:+ "sk-" +:+ DQ +:+
  " and be longer than 20 characters.".

(** [s.length]: the number of UTF-16 code units of the text whose UTF-8
    bytes [s] holds.  A character is one unit, or two when it lies
    outside the basic plane (a four-byte sequence); continuation bytes
    count for nothing. *)
Fixpoint utf16_length (s : string) : nat :=
  match s with
  | EmptyString => 0%nat
  | String c s' =>
      let b := N_of_ascii c in
      ((if (b <? 128)%N || (192 <=? b)%N && (b <? 240)%N then 1
        else if (240 <=? b)%N then 2 else 0)
       + utf16_length s')%nat
  end.

(** [validateClaudeApiKey(apiKey)].  [apiKey &&] guards the two method
    calls; a truthy value that is not a string has no [startsWith], the
    call throws and the promise of the [async] function is rejected
    ([None]). *)
Definition validateClaudeApiKey (apiKey : jsval) : option Validation :=
  if truthy apiKey then
    match apiKey with
    | JStr s =>
        if String.prefix "sk-" s && (20 <? utf16_length s)%nat
        then Some {| valid := true; error := None |}
        else Some {| valid := false; error := Some CLAUDE_API_KEY_ERROR |}
    | _ => None
    end
  else Some {| valid := false; error := Some CLAUDE_API_KEY_ERROR |}.

(** The limits of the runtime: the largest size [crypto.randomBytes]
    takes, and the longest string it builds
    ([buffer.constants.MAX_STRING_LENGTH] of the Node release the
    Dockerfile names). *)
Definition MAX_RANDOM_BYTES : N := 2 ^ 31 - 1.
Definition MAX_STRING_LENGTH : N := 2 ^ 29 - 24.

(** A call [generateRandomSecret(length)] as a whole: the secret and the
    world after it, or [None] when [crypto.randomBytes] refuses the size
    or [toString('hex')] cannot build the string, and the call throws. *)
Definition generateRandomSecret_call (length : option N)
  : World -> option (string * World) := fun w =>
  let size := default 32%N length in
  if ((size <=? MAX_RANDOM_BYTES) && (2 * size <=? MAX_STRING_LENGTH))%N
  then Some (generateRandomSecret (N.to_nat <$> length) w)
  else None.

(** The answers of the prompt of the manifest method. *)
Module ManifestPrompt.
Record Answers := {
  appNameSuffix : string;
  appUrl : string;
  webhookUrl : string
}.
End ManifestPrompt.

Definition manifest_prompt (answers : ManifestPrompt.Answers) : jsobj := [
  ("appNameSuffix", JStr (ManifestPrompt.appNameSuffix answers));
  ("appUrl", JStr (ManifestPrompt.appUrl answers));
  ("webhookUrl", JStr (ManifestPrompt.webhookUrl answers))
].

(** The installation method chosen at the first prompt, with the answers
    of the prompts that follow it. *)
Inductive InstallMethod : Type :=
  | method_interactive (answers : Answers) (authMethod : AuthMethod)
  | method_manifest (answers : ManifestPrompt.Answers)
  | method_docker.

Definition DOCKER_COMPOSE_PATH : string := "docker-compose.yml".
Definition DOCKERFILE_PATH : string := "Dockerfile".
Definition README_PATH : string := "INSTALL.md".

(** The sample [docker-compose.yml] of the docker method. *)
Definition dockerComposeContent : string :=
  "version: '3'" +:+ LF +:+
  "services:" +:+ LF +:+
  "  ai-coding-assistant:" +:+ LF +:+
  "    build: ." +:+ LF +:+
  "    ports:" +:+ LF +:+
  "      - " +:+ DQ +:+ "3000:3000" +:+ DQ +:+ LF +:+
  "    environment:" +:+ LF +:+
  "      - GITHUB_APP_ID=YOUR_GITHUB_APP_ID" +:+ LF +:+
  "      - GITHUB_APP_INSTALLATION_ID=YOUR_GITHUB_APP_INSTALLATION_ID" +:+ LF +:+
  "      - GITHUB_PRIVATE_KEY=YOUR_GITHUB_PRIVATE_KEY" +:+ LF +:+
  "      - WEBHOOK_SECRET=YOUR_WEBHOOK_SECRET" +:+ LF +:+
  "      - CLAUDE_API_KEY=YOUR_CLAUDE_API_KEY" +:+ LF +:+
  "    volumes:" +:+ LF +:+
  "      - ./:/app" +:+ LF.

(** The sample [Dockerfile] of the docker method. *)
Definition dockerfileContent : string :=
  "FROM node:18-alpine" +:+ LF +:+
  LF +:+
  "WORKDIR /app" +:+ LF +:+
  LF +:+
  "COPY package*.json ./" +:+ LF +:+
  LF +:+
  "RUN npm install" +:+ LF +:+
  LF +:+
  "COPY . ." +:+ LF +:+
  LF +:+
  "EXPOSE 3000" +:+ LF +:+
  LF +:+
  "CMD [" +:+ DQ +:+ "npm" +:+ DQ +:+ ", " +:+ DQ +:+ "start" +:+ DQ +:+ "]" +:+ LF.

(** The installation guide written at the end of a run. *)
Definition readmeContent : string :=
  "# AI Coding Assistant - Installation Guide" +:+ LF +:+
  LF +:+
  "## Prerequisites" +:+ LF +:+
  "- Node.js v14+ or Docker" +:+ LF +:+
  "- GitHub account with permissions to create GitHub Apps" +:+ LF +:+
  "- Claude API key" +:+ LF +:+
  LF +:+
  "## Installation Methods" +:+ LF +:+
  LF +:+
  "### Method 1: Interactive Setup" +:+ LF +:+
  "1. Run `npm install` to install dependencies" +:+ LF +:+
  "2. Run `node install.js` to start the installation wizard" +:+ LF +:+
  "3. Follow the prompts to complete the setup" +:+ LF +:+
  LF +:+
  "### Method 2: GitHub App Manifest Flow" +:+ LF +:+
  "1. Create a GitHub App using the provided manifest file (`github-app-manifest.json`)" +:+ LF +:+
  "2. Update the `.env` file with your GitHub App details and Claude API key" +:+ LF +:+
  "3. Run `npm install` and `npm start` to start the application" +:+ LF +:+
  LF +:+
  "### Method 3: Docker Deployment" +:+ LF +:+
  "1. Update the environment variables in `docker-compose.yml`" +:+ LF +:+
  "2. Run `docker-compose up -d` to start the application" +:+ LF +:+
  LF +:+
  "## Configuration Options" +:+ LF +:+
  LF +:+
  "### Environment Variables" +:+ LF +:+
  "- `GITHUB_APP_ID`: Your GitHub App ID" +:+ LF +:+
  "- `GITHUB_APP_INSTALLATION_ID`: Installation ID for your GitHub App" +:+ LF +:+
  "- `GITHUB_PRIVATE_KEY`: Private key for your GitHub App (or path to key file)" +:+ LF +:+
  "- `GITHUB_TOKEN`: Alternative to GitHub App for personal repos (not recommended for production)" +:+ LF +:+
  "- `WEBHOOK_SECRET`: Secret for webhook validation" +:+ LF +:+
  "- `CLAUDE_API_KEY`: Your Claude API key" +:+ LF +:+
  LF +:+
  "### GitHub App Permissions" +:+ LF +:+
  "- Issues: Read & Write" +:+ LF +:+
  "- Pull Requests: Read & Write" +:+ LF +:+
  "- Repository Contents: Read & Write" +:+ LF +:+
  "- Metadata: Read" +:+ LF +:+
  LF +:+
  "### Webhook Events" +:+ LF +:+
  "- Issues" +:+ LF +:+
  "- Issue Comments" +:+ LF +:+
  "- Pull Requests" +:+ LF +:+
  "- Pull Request Reviews" +:+ LF +:+
  "- Pull Request Review Comments" +:+ LF +:+
  LF +:+
  "## Troubleshooting" +:+ LF +:+
  LF +:+
  "### Common Issues" +:+ LF +:+
  "1. **Webhook not receiving events**: Check your firewall settings and ensure your app is publicly accessible" +:+ LF +:+
  "2. **Authentication errors**: Verify your GitHub App credentials and permissions" +:+ LF +:+
  "3. **API rate limits**: Implement retry logic with exponential backoff" +:+ LF +:+
  LF +:+
  "### Logs" +:+ LF +:+
  "Check the logs for detailed error information:" +:+ LF +:+
  "- Production: `docker logs ai-coding-assistant`" +:+ LF +:+
  "- Development: Check console output" +:+ LF +:+
  LF +:+
  "## Updating the Installation" +:+ LF +:+
  "To update your installation:" +:+ LF +:+
  "1. Pull the latest code: `git pull`" +:+ LF +:+
  "2. Run `npm install` to update dependencies" +:+ LF +:+
  "3. Restart the application" +:+ LF +:+
  LF +:+
  "## Support" +:+ LF +:+
  "For issues or questions, please open an issue on the GitHub repository." +:+ LF.

(** The whole of [runInstallation]: the method chosen, then the
    installation guide.  Control reaches the guide only when the method
    has run to its end; [config] starts as the empty object and the docker
    method leaves it so.  An error ends the run through the script's
    [catch] and [process.exit(1)]. *)
Definition runInstallation_full (installMethod : InstallMethod)
    (network : Network) (w : World) : Run :=
  let run :=
    match installMethod with
    | method_interactive answers authMethod =>
        runInstallation answers authMethod network w
    | method_manifest answers =>
        let config := manifest_prompt answers in
        let '((manifest, webhookSecret), w) :=
          generateGitHubAppManifest config w in
        let '(_, w) := saveManifest manifest w in
        let config := obj_set "WEBHOOK_SECRET" (JStr webhookSecret) config in
        let config :=
          obj_set "CLAUDE_API_KEY" (JStr "ENTER_YOUR_CLAUDE_API_KEY_HERE") config in
        let config :=
          obj_set "GITHUB_APP_ID" (JStr "GET_FROM_GITHUB_APP_SETTINGS") config in
        let config :=
          obj_set "GITHUB_APP_INSTALLATION_ID"
            (JStr "GET_FROM_GITHUB_APP_SETTINGS") config in
        let config :=
          obj_set "GITHUB_PRIVATE_KEY"
            (JStr "DOWNLOAD_FROM_GITHUB_APP_SETTINGS") config in
        let '(_, w) := saveEnvironmentVariables config w in
        Completed config None w
    | method_docker =>
        let '(_, w) :=
          writeFileSync DOCKER_COMPOSE_PATH (Text dockerComposeContent) w in
        let '(_, w) := writeFileSync DOCKERFILE_PATH (Text dockerfileContent) w in
        Completed [] None w
    end in
  match run with
  | Waiting _ _ _ | Aborted _ _ => run
  | Completed config server w =>
      let '(_, w) := writeFileSync README_PATH (Text readmeContent) w in
      Completed config server w
  end.

(** *** More vocabulary *)

Definition hex_value (c : ascii) : option N :=
  let n := N_of_ascii c in
  if ((48 <=? n) && (n <=? 57))%N then Some (n - 48)%N
  else if ((97 <=? n) && (n <=? 102))%N then Some (n - 87)%N
  else None.

(** The inverse of [buf.toString('hex')]. *)
Fixpoint fromHex (s : string) : option (list byte) :=
  match s with
  | EmptyString => Some []
  | String _ EmptyString => None
  | String c1 (String c2 s') =>
      match hex_value c1, hex_value c2, fromHex s' with
      | Some h, Some l, Some buf =>
          match Byte.of_N (16 * h + l) with
          | Some b => Some (b :: buf)
          | None => None
          end
      | _, _, _ => None
      end
  end.

Fixpoint lf_free (s : string) : bool :=
  match s with
  | EmptyString => true
  | String c s' => negb (Ascii.eqb c "010") && lf_free s'
  end.

(** The lines of a text: what stands between its line feeds. *)
Fixpoint split_lines (s : string) : list string :=
  match s with
  | EmptyString => [EmptyString]
  | String c s' =>
      if Ascii.eqb c "010" then EmptyString :: split_lines s'
      else match split_lines s' with
           | l :: ls => String c l :: ls
           | [] => [String c EmptyString]
           end
  end.

(** The requests of a trace that reach the callback route and on which
    the handler runs to its end, in order. *)
Fixpoint callbacks (requests : list Inbound) : list Request :=
  match requests with
  | [] => []
  | github_callback req :: later =>
      if renders req then req :: callbacks later else callbacks later
  | elsewhere :: later => callbacks later
  end.

(** The configuration, the listener and the world a run is in. *)
Definition run_config (r : Run) : jsobj :=
  match r with
  | Waiting config _ _ | Completed config _ _ | Aborted config _ => config
  end.

Definition run_server (r : Run) : option Listener :=
  match r with
  | Waiting _ server _ => Some server
  | Completed _ server _ => server
  | Aborted _ _ => None
  end.

Definition run_world (r : Run) : World :=
  match r with Waiting _ _ w | Completed _ _ w | Aborted _ w => w end.

Definition completed (r : Run) : bool :=
  match r with Completed _ _ _ => true | _ => false end.

Definition sample_manifest_answers : ManifestPrompt.Answers :=
  {| ManifestPrompt.appNameSuffix := "demo";
     ManifestPrompt.appUrl := "https://github.com/your-username/ai-coding-assistant";
     ManifestPrompt.webhookUrl := "http://localhost:3000/api/webhook" |}.

(** * Properties *)

(** ** Objects *)

Section Objects.
Implicit Types (k : string) (v : jsval) (o : jsobj).

Lemma obj_get_set_same k v o : obj_get k (obj_set k v o) = v.
Proof.
  induction o as [|[k' v'] o IH]; simpl.
  - by rewrite String.eqb_refl.
  - destruct (String.eqb k k') eqn:E; simpl; rewrite ?String.eqb_refl, ?E; done.
Qed.

Lemma obj_get_set_other k k' v o :
  k <> k' -> obj_get k (obj_set k' v o) = obj_get k o.
Proof.
  intros Hne. apply String.eqb_neq in Hne.
  induction o as [|[k0 v0] o IH]; simpl.
  - by rewrite Hne.
  - destruct (String.eqb k' k0) eqn:E; simpl.
    + apply String.eqb_eq in E as ->. by rewrite Hne.
    + by rewrite IH.
Qed.

(** Assignment to a new key creates the property last; assignment to an
    existing key keeps every property where it is. *)
Lemma obj_set_new k v o : k ∉ o.*1 -> obj_set k v o = o ++ [(k, v)].
Proof.
  induction o as [|[k' v'] o IH]; [done|].
  rewrite fmap_cons, not_elem_of_cons. simpl. intros [Hne Hk].
  apply String.eqb_neq in Hne. rewrite Hne. by rewrite IH.
Qed.

Lemma obj_set_keys k v o : k ∈ o.*1 -> (obj_set k v o).*1 = o.*1.
Proof.
  induction o as [|[k' v'] o IH]; [by intros ?%elem_of_nil|].
  rewrite fmap_cons, elem_of_cons. simpl. intros Hk.
  destruct (String.eqb k k') eqn:E.
  - apply String.eqb_eq in E as ->. done.
  - apply String.eqb_neq in E. destruct Hk as [?|Hk]; [done|].
    rewrite fmap_cons. simpl. by rewrite IH.
Qed.

(** Without array-index keys, [Object.entries] lists the properties in
    creation order. *)
Lemma entries_creation_order o : no_index_keys o -> entries o = o.
Proof.
  unfold entries. intros Hkeys.
  assert (omap (fun kv : string * jsval =>
                  match array_index kv.1 with
                  | Some n => Some (n, kv)
                  | None => None
                  end) o = []) as ->.
  { induction Hkeys as [|kv o Hkv _ IH]; simpl; [done|]. by rewrite Hkv. }
  simpl. induction Hkeys as [|kv o Hkv _ IH]; simpl; [done|].
  rewrite Hkv. by f_equal.
Qed.
End Objects.

(** ** The secret generator *)

Lemma toString_hex_cons b buf :
  toString_hex (b :: buf)
  = String (hex_digit (Byte.to_N b / 16))
      (String (hex_digit (Byte.to_N b mod 16)) (toString_hex buf)).
Proof. reflexivity. Qed.

Lemma byte_hex_is_hex b : all_hex (byte_hex b) = true.
Proof. destruct b; reflexivity. Qed.

Lemma toString_hex_length buf :
  String.length (toString_hex buf) = (2 * length buf)%nat.
Proof.
  induction buf as [|b buf IH]; [done|].
  rewrite toString_hex_cons. simpl. lia.
Qed.

Lemma toString_hex_all_hex buf : all_hex (toString_hex buf) = true.
Proof.
  induction buf as [|b buf IH]; [done|].
  pose proof (byte_hex_is_hex b) as Hb.
  rewrite toString_hex_cons. unfold byte_hex in Hb. simpl in *.
  rewrite andb_true_r in Hb. apply andb_true_iff in Hb as [-> ->].
  by rewrite IH.
Qed.

Lemma randomBytes_length n w : length (randomBytes n w).1 = n.
Proof. simpl. by rewrite length_fmap, length_seq. Qed.

Ltac io_unfold :=
  unfold generateGitHubAppManifest, generateRandomSecret, or_else_do,
    saveEnvironmentVariables, saveManifest, writeFileSync, randomBytes,
    mbind, IO_bind, mret, IO_ret in *.

(** The string a call returns: twice as many characters as bytes, each a
    lower-case hexadecimal digit. *)
Lemma generateRandomSecret_hex (lengthBytes : nat) (w : World) :
  let secret := (generateRandomSecret (Some lengthBytes) w).1 in
  String.length secret = (2 * lengthBytes)%nat /\ all_hex secret = true.
Proof.
  io_unfold. simpl. split.
  - by rewrite toString_hex_length, length_fmap, length_seq.
  - apply toString_hex_all_hex.
Qed.

(** C9 as stated fails: from [2^31] bytes on [crypto.randomBytes] refuses
    the size, and from [2^28] bytes on the string would be longer than the
    runtime allows; the call throws and returns no string. *)
Lemma generateRandomSecret_call_too_long :
  generateRandomSecret_call (Some (2 ^ 31)%N) sample_world = None /\
  generateRandomSecret_call (Some (2 ^ 28)%N) sample_world = None.
Proof. split; reflexivity. Qed.

(** C9, as the code has it: for every positive [lengthBytes] within the
    limits of the runtime (the string of [2 * lengthBytes] characters may
    not exceed [MAX_STRING_LENGTH]), [generateRandomSecret(lengthBytes)]
    returns a string of exactly [2 * lengthBytes] characters, each of them
    a lower-case hexadecimal digit. *)
Theorem generateRandomSecret_hex_length (lengthBytes : N) (w : World) :
  (0 < lengthBytes)%N ->
  (2 * lengthBytes <= MAX_STRING_LENGTH)%N ->
  exists secret w',
    generateRandomSecret_call (Some lengthBytes) w = Some (secret, w') /\
    N.of_nat (String.length secret) = (2 * lengthBytes)%N /\
    all_hex secret = true.
Proof.
  intros _ Hlimit. unfold generateRandomSecret_call.
  change (default 32%N (Some lengthBytes)) with lengthBytes. cbv zeta.
  change (N.to_nat <$> Some lengthBytes) with (Some (N.to_nat lengthBytes)).
  assert ((lengthBytes <=? MAX_RANDOM_BYTES)%N = true) as ->.
  { apply N.leb_le. unfold MAX_RANDOM_BYTES, MAX_STRING_LENGTH in *. lia. }
  assert ((2 * lengthBytes <=? MAX_STRING_LENGTH)%N = true) as ->
    by (by apply N.leb_le).
  cbn [andb].
  pose proof (generateRandomSecret_hex (N.to_nat lengthBytes) w)
    as [Hlength Hhex].
  destruct (generateRandomSecret (Some (N.to_nat lengthBytes)) w)
    as [secret w'].
  exists secret, w'. cbn [fst] in *. split; [done|]. split; [|done].
  rewrite Hlength. lia.
Qed.

Lemma generateRandomSecret_hex_length_witness :
  (0 < 16)%N /\ (2 * 16 <= MAX_STRING_LENGTH)%N /\
  exists secret w',
    generateRandomSecret_call (Some 16%N) sample_world = Some (secret, w') /\
    N.of_nat (String.length secret) = 32%N /\
    all_hex secret = true.
Proof.
  split; [reflexivity|]. split; [by vm_compute|].
  apply (generateRandomSecret_hex_length 16 sample_world);
    [reflexivity|by vm_compute].
Defined.

(** ** The manifest builder *)

Lemma strip_prefix_app p s : strip_prefix p (p +:+ s) = Some s.
Proof.
  induction p as [|a p IH]; [by destruct s|].
  change (String a p +:+ s) with (String a (p +:+ s)). simpl.
  by rewrite Ascii.eqb_refl.
Qed.

Lemma name_pattern_intro h :
  String.length h = 8%nat -> all_hex h = true ->
  matches_name_pattern (APP_NAME_PREFIX +:+ "-" +:+ h) = true.
Proof.
  intros Hlen Hhex. unfold matches_name_pattern.
  change (APP_NAME_PREFIX +:+ "-" +:+ h) with ("AI-Coding-Assistant-" +:+ h).
  by rewrite strip_prefix_app, Hlen, Hhex.
Qed.

(** What [generateGitHubAppManifest] computes, spelled out: the secret is
    drawn first, the four bytes of the name after it and only when the
    suffix is falsy. *)
Lemma generateGitHubAppManifest_secret config w :
  (generateGitHubAppManifest config w).1.2
  = toString_hex (entropy w <$> seq (drawn w) 16).
Proof. io_unfold. simpl. by destruct (truthy _). Qed.

Lemma generateGitHubAppManifest_hook config w :
  hook_attributes (generateGitHubAppManifest config w).1.1
  = {| hook_url := obj_get "webhookUrl" config; hook_active := true;
       hook_secret := toString_hex (entropy w <$> seq (drawn w) 16) |}.
Proof. io_unfold. simpl. by destruct (truthy _). Qed.

Lemma generateGitHubAppManifest_files config w :
  files (generateGitHubAppManifest config w).2 = files w.
Proof. io_unfold. simpl. by destruct (truthy _). Qed.

(** C7: the manifest name is the prefix, a dash and the supplied suffix;
    when the suffix is absent or the empty string, four random bytes in
    hexadecimal take its place and the name has the shape
    [AI-Coding-Assistant-[0-9a-f]{8}]. *)
Theorem manifest_name (config : jsobj) (w : World) :
  let suffix := obj_get "appNameSuffix" config in
  let manifest := (generateGitHubAppManifest config w).1.1 in
  (truthy suffix = true ->
     name manifest = APP_NAME_PREFIX +:+ "-" +:+ to_string suffix) /\
  (suffix = JUndefined \/ suffix = JStr "" ->
     name manifest
     = APP_NAME_PREFIX +:+ "-" +:+
         toString_hex (entropy w <$> seq (drawn w + 16) 4)
     /\ matches_name_pattern (name manifest) = true).
Proof.
  simpl. split.
  - intros Hsuffix. io_unfold. simpl. by rewrite Hsuffix.
  - intros Hsuffix.
    assert (truthy (obj_get "appNameSuffix" config) = false) as Hfalsy
      by (by destruct Hsuffix as [-> | ->]).
    assert (name (generateGitHubAppManifest config w).1.1
            = APP_NAME_PREFIX +:+ "-" +:+
                toString_hex (entropy w <$> seq (drawn w + 16) 4)) as ->
      by (io_unfold; simpl; by rewrite Hfalsy).
    split; [done|]. apply name_pattern_intro.
    + by rewrite toString_hex_length, length_fmap, length_seq.
    + apply toString_hex_all_hex.
Qed.

Lemma manifest_name_witness :
  let config := [("appNameSuffix", JStr "")] in
  (obj_get "appNameSuffix" config = JUndefined \/
   obj_get "appNameSuffix" config = JStr "") /\
  matches_name_pattern (name (generateGitHubAppManifest config sample_world).1.1)
  = true.
Proof.
  split; [by right|].
  apply (manifest_name [("appNameSuffix", JStr "")] sample_world). by right.
Defined.

(** C10: without a [redirectUrl] the manifest's [redirect_url] is the
    config's webhook URL, the value also placed in [hook_attributes.url];
    a [redirectUrl] that is supplied is used as it is. *)
Theorem manifest_redirect_url (config : jsobj) (w : World) :
  let manifest := (generateGitHubAppManifest config w).1.1 in
  hook_url (hook_attributes manifest) = obj_get "webhookUrl" config /\
  (truthy (obj_get "redirectUrl" config) = false ->
     redirect_url manifest = obj_get "webhookUrl" config) /\
  (truthy (obj_get "redirectUrl" config) = true ->
     redirect_url manifest = obj_get "redirectUrl" config).
Proof.
  simpl. rewrite generateGitHubAppManifest_hook. split; [done|].
  io_unfold. unfold or_else. simpl.
  destruct (truthy (obj_get "appNameSuffix" config)); simpl;
    split; by intros ->.
Qed.

Lemma manifest_redirect_url_witness :
  let config := [("webhookUrl", JStr "http://localhost:3000/api/webhook")] in
  truthy (obj_get "redirectUrl" config) = false /\
  redirect_url (generateGitHubAppManifest config sample_world).1.1
  = JStr "http://localhost:3000/api/webhook".
Proof.
  split; [reflexivity|].
  apply (manifest_redirect_url
           [("webhookUrl", JStr "http://localhost:3000/api/webhook")]
           sample_world).
  reflexivity.
Defined.

(** ** The callback listener *)

Section Listener.
Implicit Types (req : Request) (inbound : Inbound) (l : Listener).
Implicit Types (requests later : list Inbound).

Lemma callback_handler_renders req p :
  renders req = true ->
  callback_handler req p
  = Some (res_send req
            (confirmation_page (obj_get "installation_id" (query req))
               (obj_get "code" (query req))),
          resolve (result_of req) p).
Proof. unfold callback_handler, renders. by intros ->. Qed.

Lemma callback_handler_throws req p :
  renders req = false -> callback_handler req p = None.
Proof. unfold callback_handler, renders. by intros ->. Qed.

Lemma serve_throws req l :
  renders req = false -> serve (github_callback req) l = l.
Proof.
  intros Hreq. unfold serve. rewrite callback_handler_throws by done.
  by destruct (listening l).
Qed.

Lemma serve_listening inbound l : listening (serve inbound l) = listening l.
Proof.
  destruct inbound as [req|]; [|done]. unfold serve.
  destruct (listening l) eqn:E; [|done].
  by destruct (callback_handler req (settled l)) as [[res p]|].
Qed.

Lemma serve_port inbound l : port (serve inbound l) = port l.
Proof.
  destruct inbound as [req|]; [|done]. unfold serve.
  destruct (listening l) eqn:E; [|done].
  by destruct (callback_handler req (settled l)) as [[res p]|].
Qed.

(** A settled promise stays as it is. *)
Lemma serve_settled inbound l value :
  settled l = Fulfilled value -> settled (serve inbound l) = Fulfilled value.
Proof.
  intros H. destruct inbound as [req|]; [|done]. unfold serve.
  destruct (listening l); [|done].
  destruct (renders req) eqn:Hreq.
  - rewrite callback_handler_renders by done. simpl. by rewrite H.
  - by rewrite callback_handler_throws.
Qed.

Lemma serve_first req l :
  listening l = true -> settled l = Pending -> renders req = true ->
  settled (serve (github_callback req) l) = Fulfilled (result_of req).
Proof.
  intros Hl Hp Hreq. unfold serve.
  rewrite Hl, callback_handler_renders by done. simpl. by rewrite Hp.
Qed.

Lemma serve_all_cons inbound requests l :
  serve_all (inbound :: requests) l = serve_all requests (serve inbound l).
Proof. reflexivity. Qed.

Lemma serve_all_listening requests l :
  listening (serve_all requests l) = listening l.
Proof.
  revert l. induction requests as [|inbound requests IH]; intros l; [done|].
  by rewrite serve_all_cons, IH, serve_listening.
Qed.

Lemma serve_all_port requests l : port (serve_all requests l) = port l.
Proof.
  revert l. induction requests as [|inbound requests IH]; intros l; [done|].
  by rewrite serve_all_cons, IH, serve_port.
Qed.

Lemma serve_all_settled requests l value :
  settled l = Fulfilled value ->
  settled (serve_all requests l) = Fulfilled value.
Proof.
  revert l. induction requests as [|inbound requests IH]; intros l H; [done|].
  rewrite serve_all_cons. by apply IH, serve_settled.
Qed.

(** The promise after a whole trace: fulfilled by the first request that
    reaches the callback route and does not make the handler throw,
    pending when there is none. *)
Lemma serve_all_first requests l :
  listening l = true -> settled l = Pending ->
  settled (serve_all requests l)
  = match first_callback requests with
    | Some req => Fulfilled (result_of req)
    | None => Pending
    end.
Proof.
  revert l.
  induction requests as [|[req|] requests IH]; intros l Hl Hp; [done| |];
    rewrite serve_all_cons; cbn [first_callback].
  - destruct (renders req) eqn:Hreq.
    + by apply serve_all_settled, serve_first.
    + rewrite serve_throws by done. by apply IH.
  - by apply IH.
Qed.

Lemma first_callback_app requests req later :
  first_callback requests = None -> renders req = true ->
  first_callback (requests ++ github_callback req :: later) = Some req.
Proof.
  intros Hnone Hreq.
  induction requests as [|[req'|] requests IH];
    cbn [first_callback app] in *.
  - by rewrite Hreq.
  - destruct (renders req'); [done|]. by apply IH.
  - by apply IH.
Qed.

(** [await] returns as soon as the handler has resolved the promise. *)
Lemma await_first requests req l :
  listening l = true -> settled l = Pending ->
  first_callback requests = Some req ->
  exists before later,
    requests = before ++ github_callback req :: later /\
    first_callback before = None /\
    renders req = true /\
    await requests l = Some (result_of req, later, serve (github_callback req) l).
Proof.
  intros Hl Hp.
  induction requests as [|[req'|] requests IH]; intros Hfirst; [done| |].
  - cbn [first_callback] in Hfirst. destruct (renders req') eqn:Hreq'.
    + injection Hfirst as ->. exists [], requests. repeat split; [done|].
      pose proof (serve_first req l Hl Hp Hreq') as Hs.
      cbn [await]. rewrite Hp. destruct requests; cbn [await]; by rewrite Hs.
    + destruct (IH Hfirst) as (before & later & -> & Hb & Hreq & Ha).
      exists (github_callback req' :: before), later.
      split; [done|]. split; [by cbn [first_callback]; rewrite Hreq'|].
      split; [done|].
      cbn [await app]. by rewrite Hp, serve_throws.
  - destruct (IH Hfirst) as (before & later & -> & Hb & Hreq & Ha).
    exists (elsewhere :: before), later. repeat split; [done..|].
    cbn [await app]. by rewrite Hp.
Qed.

Lemma await_pending requests l :
  settled l = Pending -> first_callback requests = None ->
  await requests l = None.
Proof.
  intros Hp.
  revert l Hp.
  induction requests as [|[req|] requests IH]; intros l Hp Hnone;
    cbn [await first_callback] in *.
  - by rewrite Hp.
  - rewrite Hp. destruct (renders req) eqn:Hreq; [done|].
    rewrite serve_throws by done. by apply IH.
  - rewrite Hp. by apply IH.
Qed.

Lemma await_split before req later l :
  listening l = true -> settled l = Pending ->
  first_callback before = None -> renders req = true ->
  await (before ++ github_callback req :: later) l
  = Some (result_of req, later, serve (github_callback req) l).
Proof.
  intros Hl Hp Hnone Hreq.
  induction before as [|[req'|] before IH];
    cbn [await first_callback app] in *.
  - rewrite Hp. pose proof (serve_first req l Hl Hp Hreq) as Hs.
    destruct later; cbn [await]; by rewrite Hs.
  - rewrite Hp. destruct (renders req') eqn:Hreq'; [done|].
    rewrite serve_throws by done. by apply IH.
  - rewrite Hp. by apply IH.
Qed.
End Listener.

(** C2 fails on the code: a first request to the callback route whose
    [code] cannot be turned into a string makes the handler throw before
    it resolves; the promise stays pending and it is the second request
    whose values are recorded. *)
Theorem first_callback_not_recorded :
  let l0 := startLocalServer (JStr "3000") in
  settled (serve (github_callback unprintable_callback) l0) = Pending /\
  settled
    (serve_all
       [github_callback unprintable_callback; github_callback sample_callback]
       l0)
  = Fulfilled {| code := JStr "abc123"; installationId := JStr "999" |} /\
  await
    [github_callback unprintable_callback; github_callback sample_callback] l0
  = Some ({| code := JStr "abc123"; installationId := JStr "999" |}, [],
          serve (github_callback sample_callback) l0).
Proof. by vm_compute. Qed.




(** C5 fails on the code: on a request to the callback route whose [code]
    is an object with a property [toString] the handler throws; it sends
    nothing, the promise stays pending and the run goes on waiting. *)
Theorem unprintable_callback_hangs :
  callback_handler unprintable_callback Pending = None /\
  await [github_callback unprintable_callback] (startLocalServer (JStr "3000"))
  = None /\
  exists config server w',
    runInstallation sample_answers auth_app
      [github_callback unprintable_callback] sample_world
    = Waiting config server w' /\
    settled server = Pending /\ sent server = [].
Proof.
  do 2 (split; [reflexivity|]).
  eexists _, _, _. split; [vm_compute; reflexivity|]. by vm_compute.
Qed.

(** ** The webhook URL *)

(** C6: the configuration handed to [getWebhookUrl] is the object of the
    prompt answers; when its host and port are set (not empty), the
    derived webhook URL, which is also the one stored in the
    configuration, is [{host}:{port}/api/webhook]; for host
    ['http://localhost'] and port [4000] it is
    ['http://localhost:4000/api/webhook']. *)
Theorem getWebhookUrl_host_port (answers : Answers) :
  host answers <> "" ->
  port_answer answers <> "" ->
  getWebhookUrl (prompt answers)
  = host answers +:+ ":" +:+ port_answer answers +:+ "/api/webhook"
  /\ obj_get "webhookUrl" (registration_config answers)
     = JStr (host answers +:+ ":" +:+ port_answer answers +:+ "/api/webhook")
  /\ getWebhookUrl [("host", JStr "http://localhost"); ("port", JNum 4000)]
     = "http://localhost:4000/api/webhook".
Proof.
  intros Hhost Hport.
  assert (getWebhookUrl (prompt answers)
          = host answers +:+ ":" +:+ port_answer answers +:+ "/api/webhook")
    as Hurl.
  { apply String.eqb_neq in Hhost, Hport.
    unfold getWebhookUrl, or_else, prompt. cbn [obj_get String.eqb Ascii.eqb
      Bool.eqb truthy negb]. by rewrite Hhost, Hport. }
  split; [exact Hurl|]. split; [|by vm_compute].
  unfold registration_config. rewrite Hurl. reflexivity.
Qed.

Lemma getWebhookUrl_host_port_witness :
  let answers :=
    {| appNameSuffix := ""; host := "http://localhost";
       port_answer := "4000"; CLAUDE_API_KEY := "sk-0123456789abcdefghij" |} in
  host answers <> "" /\ port_answer answers <> "" /\
  getWebhookUrl (prompt answers) = "http://localhost:4000/api/webhook".
Proof.
  do 2 (split; [discriminate|]).
  apply (getWebhookUrl_host_port
           {| appNameSuffix := ""; host := "http://localhost";
              port_answer := "4000";
              CLAUDE_API_KEY := "sk-0123456789abcdefghij" |});
    discriminate.
Defined.

(** ** The configuration writer *)

Lemma saveEnvironmentVariables_file config w :
  files (saveEnvironmentVariables config w).2 !! ENV_FILE_PATH
  = Some (Text (join LF (env_line <$> entries config))).
Proof. io_unfold. simpl. apply lookup_insert_eq. Qed.

(** C8: [saveEnvironmentVariables] leaves in the [.env] file exactly the
    [KEY=value] lines of the configuration, in the order its keys were
    created, joined by line feeds, whatever the file held before; written
    with [{A:1}] and then with [{A:2,B:3}], the file holds the two lines
    [A=2] and [B=3] and nothing of the first write. *)
Theorem saveEnvironmentVariables_overwrites (config : jsobj) (w : World) :
  no_index_keys config ->
  files (saveEnvironmentVariables config w).2 !! ENV_FILE_PATH
  = Some (Text (join LF (env_line <$> config)))
  /\ files (saveEnvironmentVariables [("A", JNum 2); ("B", JNum 3)]
             (saveEnvironmentVariables [("A", JNum 1)] w).2).2
       !! ENV_FILE_PATH
     = Some (Text ("A=2" +:+ LF +:+ "B=3")).
Proof.
  intros Hkeys. rewrite !saveEnvironmentVariables_file. split.
  - by rewrite entries_creation_order.
  - by vm_compute.
Qed.

Lemma saveEnvironmentVariables_overwrites_witness :
  let config := [("host", JStr "http://localhost"); ("port", JNum 4000);
                 ("WEBHOOK_SECRET", JStr "00ff")] in
  no_index_keys config /\
  files (saveEnvironmentVariables config
           (saveEnvironmentVariables [("STALE", JStr "x")] sample_world).2).2
    !! ENV_FILE_PATH
  = Some (Text ("host=http://localhost" +:+ LF +:+ "port=4000" +:+ LF +:+
                "WEBHOOK_SECRET=00ff")).
Proof.
  split; [by repeat constructor|].
  apply (saveEnvironmentVariables_overwrites
           [("host", JStr "http://localhost"); ("port", JNum 4000);
            ("WEBHOOK_SECRET", JStr "00ff")]
           (saveEnvironmentVariables [("STALE", JStr "x")] sample_world).2).
  by repeat constructor.
Defined.

(** ** The interactive installation *)

(** The app-registration branch, once a request reaches the callback
    route: the run completes, with the configuration, the listener and the
    files spelled out. *)
Lemma runInstallation_app answers requests first w :
  first_callback requests = Some first ->
  exists later,
    let built := generateGitHubAppManifest (registration_config answers) w in
    let config :=
      obj_set "GITHUB_PRIVATE_KEY" (JStr "DOWNLOAD_FROM_GITHUB_APP_SETTINGS")
        (obj_set "GITHUB_APP_INSTALLATION_ID"
           (obj_get "installation_id" (query first))
           (obj_set "GITHUB_APP_ID" (JStr "GET_FROM_GITHUB_APP_SETTINGS")
              (obj_set "WEBHOOK_SECRET" (JStr built.1.2)
                 (registration_config answers)))) in
    let callbackServer :=
      startLocalServer (JStr (port_answer answers) ||| JNum DEFAULT_PORT) in
    runInstallation answers auth_app requests w
    = Completed config
        (Some (serve_all later (serve (github_callback first) callbackServer)))
        (saveEnvironmentVariables config (saveManifest built.1.1 built.2).2).2.
Proof.
  intros Hfirst.
  destruct (await_first requests first
              (startLocalServer (JStr (port_answer answers) ||| JNum DEFAULT_PORT)))
    as (before & later & _ & _ & _ & Ha); [done..|].
  exists later.
  unfold runInstallation. fold (registration_config answers).
  destruct (generateGitHubAppManifest (registration_config answers) w)
    as [[manifest webhookSecret] w1].
  cbn [fst snd].
  destruct (saveManifest manifest w1) as [u w2] eqn:Hsave.
  assert (obj_get "port"
            (obj_set "WEBHOOK_SECRET" (JStr webhookSecret)
               (registration_config answers))
          = JStr (port_answer answers)) as -> by done.
  rewrite Ha. cbn [installationId result_of snd].
  by destruct (saveEnvironmentVariables _ w2).
Qed.

(** Without such a request the run stays at [await callbackServer] and
    the [.env] file is not written. *)
Lemma runInstallation_app_waiting answers requests w :
  first_callback requests = None ->
  exists config server w',
    runInstallation answers auth_app requests w = Waiting config server w' /\
    settled server = Pending /\
    files w' !! ENV_FILE_PATH = files w !! ENV_FILE_PATH.
Proof.
  intros Hnone. unfold runInstallation. fold (registration_config answers).
  pose proof (generateGitHubAppManifest_files (registration_config answers) w)
    as Hfiles.
  destruct (generateGitHubAppManifest (registration_config answers) w)
    as [[manifest webhookSecret] w1].
  cbn [fst snd] in *. io_unfold. cbn [fst snd files].
  rewrite await_pending by done. eexists _, _, _. split; [done|].
  split.
  - by rewrite serve_all_first, Hnone.
  - cbn [files]. rewrite lookup_insert_ne by done. by rewrite Hfiles.
Qed.

(** C1: the secret embedded in the manifest is the second component of
    what [generateGitHubAppManifest] returns, and in the app-registration
    branch the [WEBHOOK_SECRET] of the final configuration is that secret
    of the one call that built the saved manifest; no other secret is
    drawn afterwards. *)
Theorem webhook_secret_never_diverges
    (config : jsobj) (answers : Answers) (requests : list Inbound)
    (w : World) :
  hook_secret (hook_attributes (generateGitHubAppManifest config w).1.1)
  = (generateGitHubAppManifest config w).1.2
  /\ (is_Some (first_callback requests) ->
      exists final server w',
        let built :=
          generateGitHubAppManifest (registration_config answers) w in
        runInstallation answers auth_app requests w
        = Completed final (Some server) w' /\
        obj_get "WEBHOOK_SECRET" final = JStr built.1.2 /\
        obj_get "WEBHOOK_SECRET" final
        = JStr (hook_secret (hook_attributes built.1.1)) /\
        files w' !! MANIFEST_FILE_PATH = Some (JsonPretty built.1.1) /\
        files w' !! ENV_FILE_PATH
        = Some (Text (join LF (env_line <$> entries final))) /\
        drawn w' = drawn built.2).
Proof.
  split.
  { by rewrite generateGitHubAppManifest_hook, generateGitHubAppManifest_secret. }
  intros [first Hfirst].
  destruct (runInstallation_app answers requests first w Hfirst)
    as (later & Hrun).
  cbv zeta in Hrun. eexists _, _, _. cbv zeta.
  split; [exact Hrun|].
  assert (forall s : string,
            obj_get "WEBHOOK_SECRET"
              (obj_set "GITHUB_PRIVATE_KEY" (JStr "DOWNLOAD_FROM_GITHUB_APP_SETTINGS")
                 (obj_set "GITHUB_APP_INSTALLATION_ID"
                    (obj_get "installation_id" (query first))
                    (obj_set "GITHUB_APP_ID" (JStr "GET_FROM_GITHUB_APP_SETTINGS")
                       (obj_set "WEBHOOK_SECRET" (JStr s)
                          (registration_config answers)))))
            = JStr s) as Hget.
  { intros s. rewrite !obj_get_set_other by done. apply obj_get_set_same. }
  split; [apply Hget|]. split.
  { rewrite Hget, generateGitHubAppManifest_hook.
    by rewrite generateGitHubAppManifest_secret. }
  split; [|split].
  - io_unfold. simpl. rewrite lookup_insert_ne by done.
    apply lookup_insert_eq.
  - apply saveEnvironmentVariables_file.
  - done.
Qed.

Lemma webhook_secret_never_diverges_witness :
  is_Some (first_callback [elsewhere; github_callback sample_callback]) /\
  exists final server w',
    runInstallation sample_answers auth_app
      [elsewhere; github_callback sample_callback] sample_world
    = Completed final (Some server) w' /\
    obj_get "WEBHOOK_SECRET" final
    = JStr (generateGitHubAppManifest (registration_config sample_answers)
              sample_world).1.2.
Proof.
  assert (is_Some (first_callback [elsewhere; github_callback sample_callback]))
    as Hsome by (by exists sample_callback).
  split; [exact Hsome|].
  destruct (proj2 (webhook_secret_never_diverges []
                     sample_answers [elsewhere; github_callback sample_callback]
                     sample_world) Hsome)
    as (final & server & w' & Hrun & Hsecret & _).
  exists final, server, w'. by split.
Defined.

(** Nothing in the script stops the server: whenever the app-registration
    branch completes, its listener is still listening on its port. *)
Lemma runInstallation_server_left_listening
    answers (requests : list Inbound) w final server w' :
  runInstallation answers auth_app requests w = Completed final (Some server) w' ->
  listening server = true /\
  port server = (JStr (port_answer answers) ||| JNum DEFAULT_PORT).
Proof.
  intros Hrun. destruct (first_callback requests) as [first|] eqn:Hfirst.
  - destruct (runInstallation_app answers requests first w Hfirst)
      as (later & Hrun').
    cbv zeta in Hrun'. rewrite Hrun' in Hrun.
    assert (server
            = serve_all later
                (serve (github_callback first)
                   (startLocalServer
                      (JStr (port_answer answers) ||| JNum DEFAULT_PORT))))
      as -> by congruence.
    by rewrite serve_all_listening, serve_listening, serve_all_port, serve_port.
  - destruct (runInstallation_app_waiting answers requests w Hfirst)
      as (config' & server' & w'' & Hrun' & _).
    congruence.
Qed.

(** C3 fails on the code: after the callback has been received and the
    run has completed, the listener started on port 3000 is still
    listening, and it goes on answering. *)
Theorem listener_left_listening :
  exists final server w',
    runInstallation sample_answers auth_app
      [github_callback sample_callback; github_callback second_callback]
      sample_world
    = Completed final (Some server) w' /\
    settled server
    = Fulfilled {| code := JStr "abc123"; installationId := JStr "999" |} /\
    obj_get "GITHUB_APP_INSTALLATION_ID" final = JStr "999" /\
    listening server = true /\
    port server = JStr "3000" /\
    length (sent server) = 2%nat.
Proof.
  eexists _, _, _. split; [vm_compute; reflexivity|]. by vm_compute.
Qed.

(** ** Sample evaluations *)

Example entries_index_keys_first :
  entries [("B", JNum 1); ("10", JNum 2); ("A", JNum 3); ("9", JNum 4)]
  = [("9", JNum 4); ("10", JNum 2); ("B", JNum 1); ("A", JNum 3)].
Proof. by vm_compute. Qed.

Example to_string_samples :
  to_string (JNum 4000) = "4000" /\
  to_string (JArr [JStr "a"; JUndefined; JNum (-3)]) = "a,,-3" /\
  to_string (JObj [("x", JStr "1")]) = "[object Object]".
Proof. by vm_compute. Qed.

Example getWebhookUrl_defaults :
  getWebhookUrl [] = "http://localhost:3000/api/webhook" /\
  getWebhookUrl [("host", JStr ""); ("port", JNum 0)]
  = "http://localhost:3000/api/webhook" /\
  getWebhookUrl (prompt sample_answers) = "http://localhost:3000/api/webhook".
Proof. by vm_compute. Qed.

Example sample_manifest_name :
  name (generateGitHubAppManifest (registration_config sample_answers)
          sample_world).1.1
  = "AI-Coding-Assistant-5b80a5ca".
Proof. by vm_compute. Qed.

Example sample_env_file :
  match runInstallation sample_answers auth_app [github_callback sample_callback]
          sample_world with
  | Completed _ _ w' =>
      files w' !! ENV_FILE_PATH
      = Some (Text (
          "appNameSuffix=" +:+ LF +:+
          "host=http://localhost" +:+ LF +:+
          "port=3000" +:+ LF +:+
          "CLAUDE_API_KEY=sk-0123456789abcdefghij" +:+ LF +:+
          "webhookUrl=http://localhost:3000/api/webhook" +:+ LF +:+
          "WEBHOOK_SECRET=0b30557a9fc4e90e33587da2c7ec1136" +:+ LF +:+
          "GITHUB_APP_ID=GET_FROM_GITHUB_APP_SETTINGS" +:+ LF +:+
          "GITHUB_APP_INSTALLATION_ID=999" +:+ LF +:+
          "GITHUB_PRIVATE_KEY=DOWNLOAD_FROM_GITHUB_APP_SETTINGS"))
  | _ => False
  end.
Proof. by vm_compute. Qed.

Example sample_env_file_pat :
  match runInstallation sample_answers (auth_pat "ghp_example") [] sample_world with
  | Completed _ server w' =>
      server = None /\
      files w' !! ENV_FILE_PATH
      = Some (Text (
          "appNameSuffix=" +:+ LF +:+
          "host=http://localhost" +:+ LF +:+
          "port=3000" +:+ LF +:+
          "CLAUDE_API_KEY=sk-0123456789abcdefghij" +:+ LF +:+
          "webhookUrl=http://localhost:3000/api/webhook" +:+ LF +:+
          "GITHUB_TOKEN=ghp_example" +:+ LF +:+
          "WEBHOOK_SECRET=0b30557a9fc4e90e33587da2c7ec1136"))
  | _ => False
  end.
Proof. by vm_compute. Qed.

Example callback_without_query :
  body <$> (fst <$> callback_handler bare_callback Pending)
  = Some (confirmation_page (JStr "undefined") (JStr "undefined")).
Proof. by vm_compute. Qed.

Example fresh_and_head_requests :
  let query := [("code", JStr "abc123"); ("installation_id", JStr "999")] in
  fst <$> callback_handler
            {| method := GET; fresh := fun _ => true; query := query |} Pending
  = Some {| statusCode := 304; body := "" |} /\
  fst <$> callback_handler
            {| method := HEAD; fresh := fun _ => false; query := query |} Pending
  = Some {| statusCode := 200; body := "" |}.
Proof. by vm_compute. Qed.

Example stringifies_samples :
  stringifies (JObj [("toString", JStr "x")]) = false /\
  stringifies (JObj [("valueOf", JStr "x")]) = true /\
  stringifies (JArr [JStr "a"; JObj [("toString", JStr "x")]]) = false /\
  stringifies (JArr [JStr "a"; JUndefined]) = true.
Proof. by vm_compute. Qed.

(** A line feed in [installation_id] adds a line to the [.env] file. *)
Example installation_id_with_line_feed :
  let req :=
    get_request [("code", JStr "c");
                 ("installation_id", JStr ("1" +:+ LF +:+ "WEBHOOK_SECRET=x"))] in
  match runInstallation sample_answers auth_app [github_callback req]
          sample_world with
  | Completed _ _ w' =>
      match files w' !! ENV_FILE_PATH with
      | Some (Text content) => length (split_lines content) = 10%nat
      | _ => False
      end
  | _ => False
  end.
Proof. by vm_compute. Qed.

(** * Further properties *)

(** ** The key format check *)

Lemma prefix_append p s :
  String.prefix p s = true <-> exists rest, s = p +:+ rest.
Proof.
  revert s. induction p as [|a p IH]; intros s.
  - split; [intros _; by exists s|by destruct s].
  - destruct s as [|b s]; simpl.
    + split; [done|by intros [rest ?]].
    + destruct (ascii_dec a b) as [->|Hne].
      * rewrite IH. split; intros [rest Hrest]; exists rest.
        -- by rewrite Hrest.
        -- change (String b p +:+ rest) with (String b (p +:+ rest)) in Hrest.
           congruence.
      * split; [done|]. intros [rest Hrest].
        change (String a p +:+ rest) with (String a (p +:+ rest)) in Hrest.
        congruence.
Qed.

Lemma utf16_length_sk rest :
  utf16_length ("sk-" +:+ rest) = (3 + utf16_length rest)%nat.
Proof. reflexivity. Qed.

(** X1: [validateClaudeApiKey] always answers on a string or on a missing
    key; it accepts exactly the keys made of [sk-] and what makes at
    least 18 more UTF-16 code units, and every other answer carries the
    format message. *)
Theorem validateClaudeApiKey_accepts (key : string) :
  (exists v,
     validateClaudeApiKey (JStr key) = Some v /\
     (valid v = true <->
        exists rest, key = "sk-" +:+ rest /\ (18 <= utf16_length rest)%nat) /\
     error v = (if valid v then None else Some CLAUDE_API_KEY_ERROR))
  /\ validateClaudeApiKey JUndefined
     = Some {| valid := false; error := Some CLAUDE_API_KEY_ERROR |}.
Proof.
  split; [|done]. unfold validateClaudeApiKey.
  destruct key as [|c key].
  { eexists. split; [done|]. split; [|done]. split; [done|].
    by intros (rest & ? & _). }
  cbn [truthy String.eqb negb].
  destruct (String.prefix "sk-" (String c key)) eqn:Hprefix.
  - apply prefix_append in Hprefix as [rest Hrest]. rewrite Hrest.
    rewrite utf16_length_sk.
    destruct (20 <? 3 + utf16_length rest)%nat eqn:Hlen;
      eexists; (split; [done|]); (split; [|done]); cbn [valid].
    + split; [|done]. intros _. exists rest. split; [done|].
      apply Nat.ltb_lt in Hlen. lia.
    + split; [done|]. intros (rest' & Hrest' & Hlong).
      apply Nat.ltb_ge in Hlen.
      assert (rest' = rest) as -> by (by apply (inj (String.append "sk-"))).
      lia.
  - eexists. split; [done|]. split; [|done]. cbn [valid]. split; [done|].
    intros (rest & Hrest & _).
    assert (String.prefix "sk-" (String c key) = true) as Htrue
      by (apply prefix_append; by exists rest).
    congruence.
Qed.

Lemma validateClaudeApiKey_accepts_witness :
  validateClaudeApiKey (JStr "sk-0123456789abcdefgh")
  = Some {| valid := true; error := None |} /\
  validateClaudeApiKey (JStr "sk-€€€€€€")
  = Some {| valid := false; error := Some CLAUDE_API_KEY_ERROR |}.
Proof.
  split.
  - destruct (validateClaudeApiKey_accepts "sk-0123456789abcdefgh")
      as [(v & Hv & Hvalid & Herror) _].
    rewrite Hv. destruct v as [[] e]; simpl in *; [by subst|].
    assert (false = true) as Hfalse; [|done].
    apply Hvalid. exists "0123456789abcdefgh". split; [done|]. simpl. lia.
  - destruct (validateClaudeApiKey_accepts "sk-€€€€€€")
      as [(v & Hv & Hvalid & Herror) _].
    rewrite Hv. destruct v as [[] e]; simpl in *; [|by subst].
    destruct (proj1 Hvalid eq_refl) as (rest & Hrest & Hlong).
    apply (inj (String.append "sk-") "€€€€€€" rest) in Hrest as <-.
    vm_compute in Hlong. lia.
Defined.

(** ** The secret generator, continued *)

Lemma fromHex_byte b s :
  fromHex (byte_hex b +:+ s)
  = match fromHex s with Some buf => Some (b :: buf) | None => None end.
Proof. destruct b; reflexivity. Qed.

Lemma fromHex_toString_hex buf : fromHex (toString_hex buf) = Some buf.
Proof.
  induction buf as [|b buf IH]; [done|].
  change (toString_hex (b :: buf)) with (byte_hex b +:+ toString_hex buf).
  by rewrite fromHex_byte, IH.
Qed.

(** X2: the hexadecimal rendering of a secret loses nothing: decoding the
    secret gives back the random bytes it was made of, so two secrets are
    equal only when the bytes behind them are. *)
Theorem generateRandomSecret_roundtrip (n : nat) (w1 w2 : World) :
  fromHex (generateRandomSecret (Some n) w1).1
  = Some (entropy w1 <$> seq (drawn w1) n)
  /\ ((generateRandomSecret (Some n) w1).1 = (generateRandomSecret (Some n) w2).1 ->
      entropy w1 <$> seq (drawn w1) n = entropy w2 <$> seq (drawn w2) n).
Proof.
  io_unfold. simpl. split; [apply fromHex_toString_hex|].
  intros Heq. apply (f_equal fromHex) in Heq.
  rewrite !fromHex_toString_hex in Heq. congruence.
Qed.

Lemma generateRandomSecret_roundtrip_witness :
  (generateRandomSecret (Some 2%nat) sample_world).1
  = (generateRandomSecret (Some 2%nat)
       {| entropy := fun i => sample_entropy (i - 5); drawn := 5;
          files := ∅ |}).1 /\
  sample_entropy <$> seq 0 2 = (fun i => sample_entropy (i - 5)) <$> seq 5 2.
Proof.
  assert ((generateRandomSecret (Some 2%nat) sample_world).1
          = (generateRandomSecret (Some 2%nat)
               {| entropy := fun i => sample_entropy (i - 5); drawn := 5;
                  files := ∅ |}).1) as Heq by reflexivity.
  split; [exact Heq|].
  exact (proj2 (generateRandomSecret_roundtrip 2 sample_world
                  {| entropy := fun i => sample_entropy (i - 5); drawn := 5;
                     files := ∅ |}) Heq).
Defined.

(** ** The manifest builder, continued *)

(** X4: building a manifest writes no file and draws 16 bytes, or 20 when
    the name needs a random suffix. *)
Theorem generateGitHubAppManifest_draws (config : jsobj) (w : World) :
  let w' := (generateGitHubAppManifest config w).2 in
  entropy w' = entropy w /\
  files w' = files w /\
  drawn w'
  = (drawn w + if truthy (obj_get "appNameSuffix" config) then 16 else 20)%nat.
Proof.
  io_unfold. simpl.
  destruct (truthy (obj_get "appNameSuffix" config)); simpl;
    repeat split; lia.
Qed.

(** X5: the manifest and the secret depend on the configuration through
    [appNameSuffix], [appUrl], [webhookUrl] and [redirectUrl] only; no
    other property (an API key, a token) finds its way into them. *)
Theorem generateGitHubAppManifest_reads (config config' : jsobj) (w : World) :
  (forall k,
     k ∈ ["appNameSuffix"; "appUrl"; "webhookUrl"; "redirectUrl"] ->
     obj_get k config = obj_get k config') ->
  generateGitHubAppManifest config w = generateGitHubAppManifest config' w.
Proof.
  intros Hsame. io_unfold.
  rewrite (Hsame "appNameSuffix"), (Hsame "appUrl"), (Hsame "webhookUrl"),
    (Hsame "redirectUrl") by set_solver.
  done.
Qed.

Lemma generateGitHubAppManifest_reads_witness :
  let config := registration_config sample_answers in
  let config' := [("appNameSuffix", JStr "");
                  ("webhookUrl", JStr "http://localhost:3000/api/webhook")] in
  (forall k,
     k ∈ ["appNameSuffix"; "appUrl"; "webhookUrl"; "redirectUrl"] ->
     obj_get k config = obj_get k config') /\
  generateGitHubAppManifest config sample_world
  = generateGitHubAppManifest config' sample_world.
Proof.
  assert (forall k,
            k ∈ ["appNameSuffix"; "appUrl"; "webhookUrl"; "redirectUrl"] ->
            obj_get k (registration_config sample_answers)
            = obj_get k [("appNameSuffix", JStr "");
                         ("webhookUrl", JStr "http://localhost:3000/api/webhook")])
    as Hsame.
  { intros k Hk. repeat (apply elem_of_cons in Hk as [->|Hk]; [reflexivity|]).
    by apply elem_of_nil in Hk. }
  split; [exact Hsame|].
  exact (generateGitHubAppManifest_reads _ _ sample_world Hsame).
Defined.

(** ** The webhook URL, continued *)

(** X6: what [getWebhookUrl] does with missing or empty properties.  A
    [baseUrl] makes [host] irrelevant; without [baseUrl] and [host] the
    URL is on [http://localhost]; without [port] it is on port 3000; with
    none of the three it is [http://localhost:3000/api/webhook]. *)
Theorem getWebhookUrl_fallbacks (config : jsobj) :
  (truthy (obj_get "baseUrl" config) = true ->
     forall h, getWebhookUrl (obj_set "host" h config) = getWebhookUrl config) /\
  (truthy (obj_get "baseUrl" config) = false ->
   truthy (obj_get "host" config) = false ->
     getWebhookUrl config
     = "http://localhost:" +:+
         to_string (obj_get "port" config ||| JNum DEFAULT_PORT) +:+
         "/api/webhook") /\
  (truthy (obj_get "port" config) = false ->
     getWebhookUrl config
     = to_string (obj_get "baseUrl" config ||| obj_get "host" config
                  ||| JStr "http://localhost") +:+ ":3000/api/webhook") /\
  (truthy (obj_get "baseUrl" config) = false ->
   truthy (obj_get "host" config) = false ->
   truthy (obj_get "port" config) = false ->
     getWebhookUrl config = "http://localhost:3000/api/webhook").
Proof.
  unfold getWebhookUrl, or_else. repeat split.
  - intros Hbase h.
    rewrite (obj_get_set_other "baseUrl" "host"),
      (obj_get_set_other "port" "host") by done.
    by rewrite Hbase.
  - intros Hbase Hhost. rewrite Hbase. cbn iota. by rewrite Hhost.
  - intros Hport. by rewrite Hport.
  - intros Hbase Hhost Hport. rewrite Hbase, Hport. cbn iota.
    by rewrite Hhost.
Qed.

Lemma getWebhookUrl_fallbacks_witness :
  let config := [("baseUrl", JStr "https://bot.example.com");
                 ("host", JStr "http://localhost")] in
  truthy (obj_get "baseUrl" config) = true /\
  getWebhookUrl (obj_set "host" (JStr "http://elsewhere") config)
  = getWebhookUrl config.
Proof.
  split; [reflexivity|].
  apply (getWebhookUrl_fallbacks
           [("baseUrl", JStr "https://bot.example.com");
            ("host", JStr "http://localhost")]).
  reflexivity.
Defined.

(** ** The configuration writer, continued *)


Lemma saveManifest_file manifest w :
  files (saveManifest manifest w).2 !! MANIFEST_FILE_PATH
  = Some (JsonPretty manifest).
Proof. io_unfold. simpl. apply lookup_insert_eq. Qed.

Lemma saveManifest_other manifest w path :
  path <> MANIFEST_FILE_PATH ->
  files (saveManifest manifest w).2 !! path = files w !! path.
Proof. intros Hpath. io_unfold. simpl. by rewrite lookup_insert_ne. Qed.

(** X7: [saveEnvironmentVariables] touches the [.env] file and nothing
    else, and the last write wins: writing one configuration after
    another leaves the world exactly as writing the second alone. *)
Theorem saveEnvironmentVariables_last_write_wins
    (config config' : jsobj) (w : World) :
  (saveEnvironmentVariables config' (saveEnvironmentVariables config w).2).2
  = (saveEnvironmentVariables config' w).2
  /\ (forall path,
        path <> ENV_FILE_PATH ->
        files (saveEnvironmentVariables config w).2 !! path = files w !! path)
  /\ entropy (saveEnvironmentVariables config w).2 = entropy w
  /\ drawn (saveEnvironmentVariables config w).2 = drawn w.
Proof.
  io_unfold. simpl. repeat split.
  - by rewrite insert_insert_eq.
  - intros path Hpath. by rewrite lookup_insert_ne.
Qed.

Lemma saveEnvironmentVariables_last_write_wins_witness :
  MANIFEST_FILE_PATH <> ENV_FILE_PATH /\
  files (saveEnvironmentVariables [("A", JNum 1)] sample_world).2
    !! MANIFEST_FILE_PATH
  = files sample_world !! MANIFEST_FILE_PATH.
Proof.
  split; [done|].
  by apply (saveEnvironmentVariables_last_write_wins [("A", JNum 1)] []
              sample_world).
Defined.

Lemma entries_Permutation (o : jsobj) : entries o ≡ₚ o.
Proof.
  unfold entries. rewrite merge_sort_Permutation.
  induction o as [|[k v] o IH]; [done|]. simpl.
  destruct (array_index k) as [n|]; simpl.
  - by rewrite IH.
  - by rewrite <- Permutation_middle, IH.
Qed.

Lemma split_lines_append (l rest : string) :
  lf_free l = true ->
  split_lines (l +:+ LF +:+ rest) = l :: split_lines rest.
Proof.
  induction l as [|c l IH]; [done|].
  cbn [lf_free]. intros [Hc Hl]%andb_true_iff.
  apply negb_true_iff in Hc.
  change (String c l +:+ LF +:+ rest) with (String c (l +:+ LF +:+ rest)).
  cbn [split_lines]. by rewrite Hc, IH.
Qed.

Lemma split_lines_single (l : string) : lf_free l = true -> split_lines l = [l].
Proof.
  induction l as [|c l IH]; [done|].
  cbn [lf_free split_lines]. intros [Hc Hl]%andb_true_iff.
  apply negb_true_iff in Hc. by rewrite Hc, IH.
Qed.

(** Joining strings without line feeds and splitting again gives them
    back. *)
Lemma split_lines_join (ls : list string) :
  ls <> [] -> Forall (fun l => lf_free l = true) ls ->
  split_lines (join LF ls) = ls.
Proof.
  intros Hne Hfree. induction Hfree as [|l ls Hl Hls IH]; [done|].
  destruct ls as [|l' ls].
  - by apply split_lines_single.
  - change (join LF (l :: l' :: ls)) with (l +:+ LF +:+ join LF (l' :: ls)).
    rewrite split_lines_append by done. by rewrite IH.
Qed.

(** X8: whatever its keys are, the file is made of one [KEY=value] string
    per property, each property giving one and each string coming from a
    property, joined by line feeds; when the configuration is not empty
    and no key or value holds a line feed, these strings are exactly the
    lines of the file. *)
Theorem saveEnvironmentVariables_one_line_each (config : jsobj) (w : World) :
  exists lines,
    files (saveEnvironmentVariables config w).2 !! ENV_FILE_PATH
    = Some (Text (join LF lines)) /\
    lines ≡ₚ env_line <$> config /\
    (config <> [] ->
     Forall (fun kv => lf_free (env_line kv) = true) config ->
     split_lines (join LF lines) = lines).
Proof.
  exists (env_line <$> entries config).
  split; [apply saveEnvironmentVariables_file|].
  split; [by rewrite entries_Permutation|].
  intros Hne Hfree. apply split_lines_join.
  - intros Hnil. apply (f_equal length) in Hnil.
    rewrite length_fmap, entries_Permutation in Hnil.
    by destruct config.
  - rewrite entries_Permutation. by apply Forall_fmap.
Qed.

Lemma saveEnvironmentVariables_one_line_each_witness :
  let config := [("B", JStr "x"); ("1", JNum 2)] in
  config <> [] /\
  Forall (fun kv => lf_free (env_line kv) = true) config /\
  exists lines,
    files (saveEnvironmentVariables config sample_world).2 !! ENV_FILE_PATH
    = Some (Text (join LF lines)) /\
    split_lines (join LF lines) = lines.
Proof.
  assert (Forall (fun kv => lf_free (env_line kv) = true)
            [("B", JStr "x"); ("1", JNum 2)]) as Hfree
    by (repeat constructor).
  split; [discriminate|]. split; [exact Hfree|].
  destruct (saveEnvironmentVariables_one_line_each
              [("B", JStr "x"); ("1", JNum 2)] sample_world)
    as (lines & Hfile & _ & Hlines).
  exists lines. split; [exact Hfile|]. by apply Hlines.
Defined.

(** X9: [saveManifest] replaces the manifest file and touches nothing
    else; it and [saveEnvironmentVariables] write different files, so the
    order of the two writes does not matter. *)
Theorem saveManifest_frame (manifest : AppManifest) (config : jsobj) (w : World) :
  files (saveManifest manifest w).2 !! MANIFEST_FILE_PATH
  = Some (JsonPretty manifest)
  /\ (forall path,
        path <> MANIFEST_FILE_PATH ->
        files (saveManifest manifest w).2 !! path = files w !! path)
  /\ (saveEnvironmentVariables config (saveManifest manifest w).2).2
     = (saveManifest manifest (saveEnvironmentVariables config w).2).2.
Proof.
  io_unfold. simpl. repeat split.
  - apply lookup_insert_eq.
  - intros path Hpath. by rewrite lookup_insert_ne.
  - f_equal. by apply insert_insert_ne.
Qed.

Lemma saveManifest_frame_witness :
  let manifest :=
    (generateGitHubAppManifest (registration_config sample_answers)
       sample_world).1.1 in
  ENV_FILE_PATH <> MANIFEST_FILE_PATH /\
  files (saveManifest manifest sample_world).2 !! ENV_FILE_PATH
  = files sample_world !! ENV_FILE_PATH.
Proof.
  split; [done|].
  by apply (saveManifest_frame
              (generateGitHubAppManifest (registration_config sample_answers)
                 sample_world).1.1 [] sample_world).
Defined.

(** ** The callback listener, continued *)

Lemma serve_all_sent (requests : list Inbound) (l : Listener) :
  listening l = true ->
  sent (serve_all requests l)
  = sent l ++
    ((fun req =>
        res_send req
          (confirmation_page (obj_get "installation_id" (query req))
             (obj_get "code" (query req))))
     <$> callbacks requests).
Proof.
  revert l. induction requests as [|[req|] requests IH]; intros l Hl.
  - simpl. by rewrite app_nil_r.
  - rewrite serve_all_cons. cbn [callbacks].
    destruct (renders req) eqn:Hreq.
    + rewrite IH by (by rewrite serve_listening).
      unfold serve. rewrite Hl, callback_handler_renders by done.
      cbn [sent fmap list_fmap]. by rewrite <- app_assoc.
    + rewrite serve_throws by done. by apply IH.
  - rewrite serve_all_cons. by apply IH.
Qed.

(** X10: the listener goes on answering after the promise is settled.
    Every request that reaches the callback route and whose values can be
    turned into strings, the later ones like the first, is answered
    through [res.send] with its own confirmation page (as a bodiless 304
    when the request is fresh, without body for HEAD); the handler sends
    nothing else. *)
Theorem every_callback_answered (port : jsval) (requests : list Inbound) :
  sent (serve_all requests (startLocalServer port))
  = (fun req =>
       let page :=
         confirmation_page (obj_get "installation_id" (query req))
           (obj_get "code" (query req)) in
       if fresh req page then {| statusCode := 304; body := "" |}
       else {| statusCode := 200;
               body := match method req with GET => page | HEAD => "" end |})
    <$> callbacks requests.
Proof. by rewrite serve_all_sent. Qed.

(** X20: the promise is resolved once, by the first request on which the
    handler runs to its end.  Requests that go elsewhere or make the
    handler throw leave the promise pending; the first request that
    reaches the callback route with values that can be turned into
    strings fulfils it with its own [code] and [installation_id]; no later
    request changes that value, and the awaiting script receives that one
    result. *)
Theorem callback_resolves_once
    (port : jsval) (before : list Inbound) (first : Request)
    (later : list Inbound) :
  first_callback before = None ->
  renders first = true ->
  let l0 := startLocalServer port in
  settled (serve_all before l0) = Pending /\
  settled (serve_all (before ++ [github_callback first]) l0)
  = Fulfilled {| code := obj_get "code" (query first);
                 installationId := obj_get "installation_id" (query first) |} /\
  settled (serve_all (before ++ github_callback first :: later) l0)
  = Fulfilled {| code := obj_get "code" (query first);
                 installationId := obj_get "installation_id" (query first) |} /\
  await (before ++ github_callback first :: later) l0
  = Some (result_of first, later, serve (github_callback first) l0).
Proof.
  intros Hbefore Hfirst l0. repeat split.
  - by rewrite serve_all_first, Hbefore.
  - by rewrite serve_all_first, first_callback_app.
  - by rewrite serve_all_first, first_callback_app.
  - by apply await_split.
Qed.

Lemma callback_resolves_once_witness :
  let before := [elsewhere; github_callback unprintable_callback] in
  first_callback before = None /\
  renders sample_callback = true /\
  settled
    (serve_all
       (before ++ [github_callback sample_callback;
                   github_callback second_callback])
       (startLocalServer (JStr "3000")))
  = Fulfilled {| code := JStr "abc123"; installationId := JStr "999" |}.
Proof.
  do 2 (split; [reflexivity|]).
  apply (callback_resolves_once (JStr "3000")
           [elsewhere; github_callback unprintable_callback]
           sample_callback [github_callback second_callback]); reflexivity.
Defined.

(** X21: a request to the callback route whose query lacks [code],
    [installation_id] or both resolves the pending promise.  A missing
    field reads as [undefined]; when each of the two fields is missing or
    a string the handler runs to its end, and whenever it does the promise
    is fulfilled with the fields as found and the awaiting script
    proceeds. *)
Theorem callback_missing_fields (port : jsval) (req : Request) :
  let l0 := startLocalServer port in
  (forall k, k ∉ (query req).*1 -> obj_get k (query req) = JUndefined) /\
  ((forall k,
      k ∈ ["code"; "installation_id"] ->
      k ∉ (query req).*1 \/ exists s, obj_get k (query req) = JStr s) ->
   renders req = true) /\
  (renders req = true ->
   settled (serve (github_callback req) l0)
   = Fulfilled {| code := obj_get "code" (query req);
                  installationId := obj_get "installation_id" (query req) |}
   /\ await [github_callback req] l0
      = Some (result_of req, [], serve (github_callback req) l0)).
Proof.
  intros l0.
  assert (forall k, k ∉ (query req).*1 -> obj_get k (query req) = JUndefined)
    as Hmissing.
  { intros k. induction (query req) as [|[k' v] q IH]; [done|].
    rewrite fmap_cons, not_elem_of_cons. simpl. intros [Hne Hk].
    apply String.eqb_neq in Hne. rewrite Hne. by apply IH. }
  split; [exact Hmissing|]. split.
  - intros Hfields. unfold renders.
    assert (forall k,
              k ∈ ["code"; "installation_id"] ->
              stringifies (obj_get k (query req)) = true) as Hstr.
    { intros k Hk. destruct (Hfields k Hk) as [Habsent|[s Hs]].
      - by rewrite Hmissing.
      - by rewrite Hs. }
    rewrite !Hstr by set_solver. done.
  - intros Hreq. split; [by apply serve_first|].
    cbn [await]. by rewrite (serve_first req l0).
Qed.

Lemma callback_missing_fields_witness :
  let req := get_request [("installation_id", JStr "999")] in
  (forall k,
     k ∈ ["code"; "installation_id"] ->
     k ∉ (query req).*1 \/ exists s, obj_get k (query req) = JStr s) /\
  settled (serve (github_callback req) (startLocalServer (JNum 3000)))
  = Fulfilled {| code := JUndefined; installationId := JStr "999" |}.
Proof.
  assert (forall k,
            k ∈ ["code"; "installation_id"] ->
            k ∉ (query (get_request [("installation_id", JStr "999")])).*1 \/
            exists s,
              obj_get k (query (get_request [("installation_id", JStr "999")]))
              = JStr s) as Hfields.
  { intros k [->|[->|[]%elem_of_nil]%elem_of_cons]%elem_of_cons.
    - left. simpl. by intros [?|?%elem_of_nil]%elem_of_cons.
    - right. by exists "999". }
  split; [exact Hfields|].
  destruct (callback_missing_fields (JNum 3000)
              (get_request [("installation_id", JStr "999")]))
    as (_ & Hrenders & Hresolves).
  by apply Hresolves, Hrenders.
Defined.

Lemma await_listener (requests later : list Inbound) (l l' : Listener) value :
  await requests l = Some (value, later, l') ->
  listening l' = listening l /\ port l' = port l.
Proof.
  revert l. induction requests as [|inbound requests IH]; intros l; simpl.
  - destruct (settled l); [done|]. by intros [= _ _ ->].
  - destruct (settled l) eqn:Hp.
    + intros Ha. destruct (IH _ Ha) as [-> ->].
      by rewrite serve_listening, serve_port.
    + by intros [= _ _ ->].
Qed.

Lemma runInstallation_server (answers : Answers) (authMethod : AuthMethod)
    (requests : list Inbound) (w : World) (server : Listener) :
  run_server (runInstallation answers authMethod requests w) = Some server ->
  listening server = true /\
  port server = (JStr (port_answer answers) ||| JNum DEFAULT_PORT).
Proof.
  unfold runInstallation. fold (registration_config answers).
  destruct authMethod as [token|].
  - destruct (generateRandomSecret _ w) as [secret w1].
    by destruct (saveEnvironmentVariables _ w1).
  - destruct (generateGitHubAppManifest _ w) as [[manifest secret] w1].
    destruct (saveManifest manifest w1) as [u w2].
    assert (obj_get "port"
              (obj_set "WEBHOOK_SECRET" (JStr secret) (registration_config answers))
            = JStr (port_answer answers)) as -> by done.
    destruct (await requests _) as [[[value later] l']|] eqn:Ha.
    + destruct (saveEnvironmentVariables _ w2) as [u' w3]. simpl.
      intros [= <-]. apply await_listener in Ha as [Hl Hport].
      by rewrite serve_all_listening, serve_all_port, Hl, Hport.
    + simpl. intros [= <-].
      by rewrite serve_all_listening, serve_all_port.
Qed.

Lemma runInstallation_full_server (installMethod : InstallMethod)
    (requests : list Inbound) (w : World) :
  run_server (runInstallation_full installMethod requests w)
  = match installMethod with
    | method_interactive answers authMethod =>
        run_server (runInstallation answers authMethod requests w)
    | _ => None
    end.
Proof.
  unfold runInstallation_full. destruct installMethod as [answers auth|answers|].
  - by destruct (runInstallation answers auth requests w).
  - destruct (generateGitHubAppManifest _ w) as [[manifest secret] w1].
    destruct (saveManifest manifest w1) as [u w2].
    by destruct (saveEnvironmentVariables _ w2).
  - done.
Qed.

(** X11: no run, whatever the method and the requests, stops a server it
    has started: a listener is still listening on its port when the run
    completes, and while it waits. *)
Theorem no_run_stops_the_server (installMethod : InstallMethod)
    (requests : list Inbound) (w : World) (server : Listener) :
  run_server (runInstallation_full installMethod requests w) = Some server ->
  listening server = true.
Proof.
  rewrite runInstallation_full_server.
  destruct installMethod as [answers auth|answers|]; [|done..].
  intros Hserver. by apply runInstallation_server in Hserver as [? _].
Qed.

Lemma no_run_stops_the_server_witness :
  exists server,
    run_server
      (runInstallation_full (method_interactive sample_answers auth_app)
         [github_callback sample_callback; elsewhere] sample_world)
    = Some server /\
    listening server = true.
Proof.
  eexists. split; [reflexivity|].
  apply (no_run_stops_the_server (method_interactive sample_answers auth_app)
           [github_callback sample_callback; elsewhere] sample_world).
  reflexivity.
Defined.

(** ** The interactive installation, continued *)

(** X12: with a personal access token the run completes whatever arrives
    at the port: no server is started, 16 bytes are drawn for the secret,
    no file but [.env] is touched (the manifest is not written), and the
    [.env] file holds the four answers, the webhook URL, the token and the
    secret, in this order. *)
Theorem pat_branch (answers : Answers) (token : string)
    (requests : list Inbound) (w : World) :
  exists config w',
    runInstallation answers (auth_pat token) requests w
    = Completed config None w' /\
    drawn w' = (drawn w + 16)%nat /\
    (forall path, path <> ENV_FILE_PATH -> files w' !! path = files w !! path) /\
    files w' !! ENV_FILE_PATH
    = Some (Text (join LF [
        "appNameSuffix=" +:+ appNameSuffix answers;
        "host=" +:+ host answers;
        "port=" +:+ port_answer answers;
        "CLAUDE_API_KEY=" +:+ CLAUDE_API_KEY answers;
        "webhookUrl=" +:+ getWebhookUrl (prompt answers);
        "GITHUB_TOKEN=" +:+ token;
        "WEBHOOK_SECRET=" +:+ toString_hex (entropy w <$> seq (drawn w) 16)
      ])).
Proof.
  eexists _, _. split; [reflexivity|]. cbn [drawn files].
  split; [done|]. split.
  - intros path Hpath. by rewrite lookup_insert_ne.
  - by rewrite lookup_insert_eq.
Qed.

Lemma pat_branch_witness :
  MANIFEST_FILE_PATH <> ENV_FILE_PATH /\
  files (run_world (runInstallation sample_answers (auth_pat "ghp_example")
                      [github_callback sample_callback] sample_world))
    !! MANIFEST_FILE_PATH
  = None.
Proof.
  split; [done|].
  destruct (pat_branch sample_answers "ghp_example"
              [github_callback sample_callback] sample_world)
    as (config & w' & Hrun & _ & Hother & _).
  rewrite Hrun. cbn [run_world]. by rewrite Hother.
Defined.

(** X13: the [.env] file of the app-registration branch.  Its content is
    nine [KEY=value] strings joined by line feeds: the wizard's own
    answers beside the credentials, the API key as typed, the installation
    id as the callback carried it ([undefined] when it carried none), and
    no authorization code.  When no answer and no installation id holds a
    line feed these are the nine lines of the file. *)
Theorem app_branch_env_file (answers : Answers) (requests : list Inbound)
    (first : Request) (w : World) :
  first_callback requests = Some first ->
  let entries := [
    "appNameSuffix=" +:+ appNameSuffix answers;
    "host=" +:+ host answers;
    "port=" +:+ port_answer answers;
    "CLAUDE_API_KEY=" +:+ CLAUDE_API_KEY answers;
    "webhookUrl=" +:+ getWebhookUrl (prompt answers);
    "WEBHOOK_SECRET=" +:+ toString_hex (entropy w <$> seq (drawn w) 16);
    "GITHUB_APP_ID=GET_FROM_GITHUB_APP_SETTINGS";
    "GITHUB_APP_INSTALLATION_ID=" +:+
      to_string (obj_get "installation_id" (query first));
    "GITHUB_PRIVATE_KEY=DOWNLOAD_FROM_GITHUB_APP_SETTINGS"
  ] in
  files (run_world (runInstallation answers auth_app requests w))
    !! ENV_FILE_PATH
  = Some (Text (join LF entries))
  /\ (Forall (fun l => lf_free l = true) entries ->
      split_lines (join LF entries) = entries).
Proof.
  intros Hfirst entries. split; [|by apply split_lines_join].
  destruct (runInstallation_app answers requests first w Hfirst)
    as (later & Hrun).
  cbv zeta in Hrun. rewrite Hrun. cbn [run_world].
  rewrite saveEnvironmentVariables_file, generateGitHubAppManifest_secret.
  reflexivity.
Qed.

Lemma app_branch_env_file_witness :
  first_callback [elsewhere; github_callback bare_callback] = Some bare_callback /\
  exists content,
    files (run_world (runInstallation sample_answers auth_app
                        [elsewhere; github_callback bare_callback] sample_world))
      !! ENV_FILE_PATH
    = Some (Text content) /\
    length (split_lines content) = 9%nat.
Proof.
  split; [reflexivity|].
  destruct (app_branch_env_file sample_answers
              [elsewhere; github_callback bare_callback] bare_callback
              sample_world eq_refl) as [Hfile Hlines].
  eexists. split; [exact Hfile|].
  rewrite Hlines; [reflexivity|]. by repeat constructor.
Defined.

(** X14: the authorization code of the callback is dropped.  Take two
    runs on the same answers and, in each, the first callback on which the
    handler runs to its end: when these agree on [installation_id] the
    runs end with the same configuration and the same files, whatever the
    codes and whatever else was requested. *)
Theorem authorization_code_unused (answers : Answers)
    (requests requests' : list Inbound) (first first' : Request) (w : World) :
  first_callback requests = Some first ->
  first_callback requests' = Some first' ->
  obj_get "installation_id" (query first)
  = obj_get "installation_id" (query first') ->
  run_config (runInstallation answers auth_app requests w)
  = run_config (runInstallation answers auth_app requests' w)
  /\ run_world (runInstallation answers auth_app requests w)
     = run_world (runInstallation answers auth_app requests' w).
Proof.
  intros Hfirst Hfirst' Hid.
  destruct (runInstallation_app answers requests first w Hfirst)
    as (later & ->).
  destruct (runInstallation_app answers requests' first' w Hfirst')
    as (later' & ->).
  cbn [run_config run_world]. by rewrite Hid.
Qed.

Lemma authorization_code_unused_witness :
  let other := get_request [("installation_id", JStr "999")] in
  first_callback [github_callback sample_callback] = Some sample_callback /\
  first_callback [elsewhere; github_callback other] = Some other /\
  obj_get "installation_id" (query sample_callback)
  = obj_get "installation_id" (query other) /\
  run_world (runInstallation sample_answers auth_app
               [github_callback sample_callback] sample_world)
  = run_world (runInstallation sample_answers auth_app
                 [elsewhere; github_callback other] sample_world).
Proof.
  do 3 (split; [reflexivity|]).
  apply (authorization_code_unused sample_answers
           [github_callback sample_callback]
           [elsewhere; github_callback (get_request [("installation_id", JStr "999")])]
           sample_callback (get_request [("installation_id", JStr "999")])
           sample_world); reflexivity.
Defined.





(** ** The whole run *)

(** X16: there is no timeout.  As long as no request to the callback
    route has been served to the end (none arrives, or the handler throws
    on each), the app-registration run stays at its [await]: the manifest is
    on disk and the secret in the configuration, but neither the [.env]
    file nor the guide nor any other file is written. *)
Theorem app_branch_waits (answers : Answers) (requests : list Inbound)
    (w : World) :
  first_callback requests = None ->
  let run :=
    runInstallation_full (method_interactive answers auth_app) requests w in
  let built := generateGitHubAppManifest (registration_config answers) w in
  completed run = false /\
  obj_get "WEBHOOK_SECRET" (run_config run) = JStr built.1.2 /\
  files (run_world run) !! MANIFEST_FILE_PATH = Some (JsonPretty built.1.1) /\
  (forall path,
     path <> MANIFEST_FILE_PATH ->
     files (run_world run) !! path = files w !! path).
Proof.
  intros Hnone. cbv zeta.
  pose proof (generateGitHubAppManifest_files (registration_config answers) w)
    as Hfiles.
  unfold runInstallation_full, runInstallation.
  fold (registration_config answers).
  destruct (generateGitHubAppManifest (registration_config answers) w)
    as [[manifest secret] w1].
  cbn [fst snd] in *.
  destruct (saveManifest manifest w1) as [u w2] eqn:Hsave.
  rewrite await_pending by done. cbn [completed run_config run_world].
  assert (w2 = (saveManifest manifest w1).2) as -> by (by rewrite Hsave).
  split; [done|]. split; [apply obj_get_set_same|].
  split; [apply saveManifest_file|].
  intros path Hpath. by rewrite saveManifest_other, Hfiles.
Qed.

Lemma app_branch_waits_witness :
  first_callback [elsewhere; elsewhere] = None /\
  completed
    (runInstallation_full (method_interactive sample_answers auth_app)
       [elsewhere; elsewhere] sample_world)
  = false.
Proof.
  split; [reflexivity|].
  by apply (app_branch_waits sample_answers [elsewhere; elsewhere] sample_world).
Defined.

(** X17: the manifest method completes without a server and whatever is
    requested; the secret of its [.env] file is the secret of the manifest
    it saved, the webhook URL of the manifest is the answer as typed, and
    every other credential is a placeholder. *)
Theorem manifest_method (answers : ManifestPrompt.Answers)
    (requests : list Inbound) (w : World) :
  let built := generateGitHubAppManifest (manifest_prompt answers) w in
  let config :=
    manifest_prompt answers ++
    [("WEBHOOK_SECRET", JStr (hook_secret (hook_attributes built.1.1)));
     ("CLAUDE_API_KEY", JStr "ENTER_YOUR_CLAUDE_API_KEY_HERE");
     ("GITHUB_APP_ID", JStr "GET_FROM_GITHUB_APP_SETTINGS");
     ("GITHUB_APP_INSTALLATION_ID", JStr "GET_FROM_GITHUB_APP_SETTINGS");
     ("GITHUB_PRIVATE_KEY", JStr "DOWNLOAD_FROM_GITHUB_APP_SETTINGS")] in
  exists w',
    runInstallation_full (method_manifest answers) requests w
    = Completed config None w' /\
    files w' !! MANIFEST_FILE_PATH = Some (JsonPretty built.1.1) /\
    files w' !! ENV_FILE_PATH = Some (Text (join LF (env_line <$> config))) /\
    hook_url (hook_attributes built.1.1)
    = JStr (ManifestPrompt.webhookUrl answers) /\
    drawn w' = drawn built.2.
Proof.
  cbv zeta. rewrite generateGitHubAppManifest_hook. cbn [hook_secret hook_url].
  rewrite <- (generateGitHubAppManifest_secret (manifest_prompt answers) w).
  unfold runInstallation_full.
  destruct (generateGitHubAppManifest (manifest_prompt answers) w)
    as [[manifest secret] w1].
  cbn [fst snd].
  eexists. split; [reflexivity|].
  cbn [files saveEnvironmentVariables saveManifest writeFileSync snd drawn].
  split; [|split; [|done]].
  - rewrite !lookup_insert_ne by done. apply lookup_insert_eq.
  - rewrite lookup_insert_ne by done. apply lookup_insert_eq.
Qed.

(** X18: the docker method writes its two sample files and the guide and
    nothing else: no secret is drawn, no server is started, and the
    [.env] file and the manifest stay as they were. *)
Theorem docker_method (requests : list Inbound) (w : World) :
  exists w',
    runInstallation_full method_docker requests w = Completed [] None w' /\
    entropy w' = entropy w /\ drawn w' = drawn w /\
    files w' !! DOCKER_COMPOSE_PATH = Some (Text dockerComposeContent) /\
    files w' !! DOCKERFILE_PATH = Some (Text dockerfileContent) /\
    (forall path,
       path ∉ [DOCKER_COMPOSE_PATH; DOCKERFILE_PATH; README_PATH] ->
       files w' !! path = files w !! path).
Proof.
  eexists. split; [reflexivity|]. cbn [entropy drawn files].
  do 2 (split; [done|]). split; [|split].
  - rewrite !lookup_insert_ne by done. apply lookup_insert_eq.
  - rewrite lookup_insert_ne by done. apply lookup_insert_eq.
  - intros path Hpath.
    rewrite !not_elem_of_cons in Hpath. destruct Hpath as (? & ? & ? & _).
    by rewrite !lookup_insert_ne.
Qed.

Lemma docker_method_witness :
  (ENV_FILE_PATH ∉ [DOCKER_COMPOSE_PATH; DOCKERFILE_PATH; README_PATH]) /\
  files (run_world (runInstallation_full method_docker []
                      (saveEnvironmentVariables [("A", JNum 1)] sample_world).2))
    !! ENV_FILE_PATH
  = Some (Text "A=1").
Proof.
  assert (ENV_FILE_PATH ∉ [DOCKER_COMPOSE_PATH; DOCKERFILE_PATH; README_PATH])
    as Hpath.
  { rewrite !not_elem_of_cons. repeat split; try done. apply not_elem_of_nil. }
  split; [exact Hpath|].
  destruct (docker_method []
              (saveEnvironmentVariables [("A", JNum 1)] sample_world).2)
    as (w' & Hrun & _ & _ & _ & _ & Hother).
  rewrite Hrun. cbn [run_world]. rewrite (Hother _ Hpath). reflexivity.
Defined.

Lemma runInstallation_full_completed (installMethod : InstallMethod)
    (network : Network) (w : World) :
  completed (runInstallation_full installMethod network w)
  = match installMethod with
    | method_interactive answers auth_app =>
        match network with
        | serves requests =>
            match first_callback requests with Some _ => true | None => false end
        | _ => false
        end
    | _ => true
    end.
Proof.
  destruct installMethod as [answers [token|]|answers|].
  - reflexivity.
  - unfold runInstallation_full. destruct network as [requests| |].
    + destruct (first_callback requests) as [first|] eqn:Hfirst.
      * destruct (runInstallation_app answers requests first w Hfirst)
          as (later & ->). done.
      * destruct (runInstallation_app_waiting answers requests w Hfirst)
          as (config & server & w' & -> & _). done.
    + unfold runInstallation.
      destruct (generateGitHubAppManifest _ w) as [[manifest secret] w1].
      by destruct (saveManifest manifest w1).
    + unfold runInstallation.
      destruct (generateGitHubAppManifest _ w) as [[manifest secret] w1].
      by destruct (saveManifest manifest w1).
  - unfold runInstallation_full.
    destruct (generateGitHubAppManifest _ w) as [[manifest secret] w1].
    reflexivity.
  - reflexivity.
Qed.

(** X19: when a run completes.  The token branch, the manifest method and
    the docker method always do; the app-registration branch does exactly
    when the server and the browser could be started and some request
    reached the callback route with values the handler could turn into
    strings: otherwise the run is aborted or goes on waiting.  Every run
    that completes has written the installation guide, the same for every
    method. *)
Theorem run_completes_with_guide (installMethod : InstallMethod)
    (network : Network) (w : World) :
  let run := runInstallation_full installMethod network w in
  (completed run = true <->
     (forall answers, installMethod <> method_interactive answers auth_app) \/
     (exists requests,
        network = serves requests /\ is_Some (first_callback requests))) /\
  (completed run = true ->
     files (run_world run) !! README_PATH = Some (Text readmeContent)).
Proof.
  cbv zeta. split.
  - rewrite runInstallation_full_completed.
    destruct installMethod as [answers [token|]|answers|];
      try (split; [intros _; by left|done]).
    destruct network as [requests| |].
    + destruct (first_callback requests) as [first|] eqn:Hfirst.
      * split; [|done]. intros _. right. exists requests.
        split; [done|]. rewrite Hfirst. by eexists.
      * split; [done|]. intros [Hother|(requests' & [= <-] & Hsome)].
        -- by destruct (Hother answers).
        -- rewrite Hfirst in Hsome. by destruct Hsome.
    + split; [done|]. intros [Hother|(requests' & [=] & _)].
      by destruct (Hother answers).
    + split; [done|]. intros [Hother|(requests' & [=] & _)].
      by destruct (Hother answers).
  - unfold runInstallation_full.
    destruct (match installMethod with
              | method_interactive answers authMethod => _
              | method_manifest answers => _
              | method_docker => _
              end) as [config server w'|config server w'|config w']; [done| |done].
    intros _. cbn [run_world writeFileSync files snd]. apply lookup_insert_eq.
Qed.

Lemma run_completes_with_guide_witness :
  completed
    (runInstallation_full (method_manifest sample_manifest_answers) open_fails
       sample_world) = true /\
  files (run_world
           (runInstallation_full (method_manifest sample_manifest_answers)
              open_fails sample_world)) !! README_PATH
  = Some (Text readmeContent).
Proof.
  split; [reflexivity|].
  by apply (run_completes_with_guide (method_manifest sample_manifest_answers)
              open_fails sample_world).
Defined.
